(** * Extract-HTML: a shallow embedding of [extractHTML.py]

    The script fetches a page, stores it under a directory named after the
    URL, and optionally mirrors the linked stylesheets next to it.  The
    four functions of the script are embedded below as computations over an
    explicit world (file system, request log, console); the libraries the
    script calls ([urllib.parse], [requests], [bs4]) are an environment
    the development is parametric in. *)

From Stdlib Require Import Ascii.
From stdpp Require Import base option list gmap strings pretty.

Local Open Scope char_scope.

(** ** Python [str] methods used by the script *)

Module PyStr.

(** [s.startswith(p)] *)
Definition startswith (s p : string) : bool := String.prefix p s.

(** [s.startswith((p1, p2, ...))] *)
Definition startswith_any (s : string) (ps : list string) : bool :=
  existsb (startswith s) ps.

(** [s.endswith(p)] *)
Definition endswith (s p : string) : bool :=
  String.prefix (String.rev p) (String.rev s).

(** [c in s] for a one-character [c] *)
Fixpoint mem (c : ascii) (s : string) : bool :=
  match s with
  | EmptyString => false
  | String a s' => if decide (a = c) then true else mem c s'
  end.

Fixpoint lstrip (cs : list ascii) (s : string) : string :=
  match s with
  | EmptyString => EmptyString
  | String a s' => if decide (a ∈ cs) then lstrip cs s' else s
  end.

Fixpoint rstrip (cs : list ascii) (s : string) : string :=
  match s with
  | EmptyString => EmptyString
  | String a s' =>
      match rstrip cs s' with
      | EmptyString => if decide (a ∈ cs) then EmptyString
                       else String a EmptyString
      | r => String a r
      end
  end.

(** [s.strip(cs)] *)
Definition strip (cs : list ascii) (s : string) : string :=
  rstrip cs (lstrip cs s).

(** A string holds text in UTF-8: a character beyond ASCII is the two to
    four bytes of its encoding.  The methods above and [re.sub] are used
    with ASCII arguments only, and a byte below 128 is never part of the
    encoding of another character, so they act on the bytes as Python does
    on the characters. *)

(** [s] without its prefix [p], when it has that prefix. *)
Fixpoint cut_prefix (p s : string) : option string :=
  match p with
  | EmptyString => Some s
  | String a p' =>
      match s with
      | String b s' => if decide (a = b) then cut_prefix p' s' else None
      | EmptyString => None
      end
  end.

(** The characters for which [str.isspace] holds, each as the bytes of its
    encoding: U+0009 to U+000D, U+001C to U+0020, U+0085, U+00A0, U+1680,
    U+2000 to U+200A, U+2028, U+2029, U+202F, U+205F and U+3000.  None is
    a prefix of another. *)
Definition whitespace : list string :=
  Stdlib.Strings.String.string_of_list_ascii <$>
    [["009"]; ["010"]; ["011"]; ["012"]; ["013"];
     ["028"]; ["029"]; ["030"]; ["031"]; ["032"];
     ["194"; "133"]; ["194"; "160"]; ["225"; "154"; "128"];
     ["226"; "128"; "128"]; ["226"; "128"; "129"]; ["226"; "128"; "130"];
     ["226"; "128"; "131"]; ["226"; "128"; "132"]; ["226"; "128"; "133"];
     ["226"; "128"; "134"]; ["226"; "128"; "135"]; ["226"; "128"; "136"];
     ["226"; "128"; "137"]; ["226"; "128"; "138"];
     ["226"; "128"; "168"]; ["226"; "128"; "169"]; ["226"; "128"; "175"];
     ["226"; "129"; "159"]; ["227"; "128"; "128"]].

(** [s] without its first character, when that is one of [ps]. *)
Definition cut_any (ps : list string) (s : string) : option string :=
  head (omap (λ p, cut_prefix p s) ps).

(** Characters of [ps] are taken off the front of [s], [n] at most. *)
Fixpoint lstrip_any (n : nat) (ps : list string) (s : string) : string :=
  match n with
  | O => s
  | S n' =>
      match cut_any ps s with
      | Some s' => lstrip_any n' ps s'
      | None => s
      end
  end.

(** [s.lstrip()]: no more characters than [s] has bytes can go. *)
Definition lstrip_ws (s : string) : string :=
  lstrip_any (String.length s) whitespace s.

(** [s.rstrip()]: the same from the end; the first byte of an encoding
    tells where a character starts, so the bytes can be read backwards. *)
Definition rstrip_ws (s : string) : string :=
  String.rev (lstrip_any (String.length s) (String.rev <$> whitespace)
                (String.rev s)).

(** [s.strip()] *)
Definition strip_ws (s : string) : string := rstrip_ws (lstrip_ws s).

Definition lower_char (c : ascii) : ascii :=
  let n := nat_of_ascii c in
  if (65 <=? n)%nat && (n <=? 90)%nat then ascii_of_nat (n + 32) else c.

(** [s.lower()], for what the script does with it: the letters A to Z are
    mapped and every other byte is kept.  [str.lower] also maps letters
    beyond ASCII, but none of them to [y], [e] or [s], so the comparison
    of line 189 comes out as in Python. *)
Fixpoint lower (s : string) : string :=
  match s with
  | EmptyString => EmptyString
  | String a s' => String (lower_char a) (lower s')
  end.

(** [re.sub('[' + cls + ']', repl, s)] for a one-character replacement:
    every character of the class is replaced, the others are kept. *)
Fixpoint re_sub_class (cls : list ascii) (repl : ascii) (s : string) : string :=
  match s with
  | EmptyString => EmptyString
  | String a s' =>
      String (if decide (a ∈ cls) then repl else a) (re_sub_class cls repl s')
  end.

(** Python truthiness of a string: [not s] is [negb (truthy s)]. *)
Definition truthy (s : string) : bool :=
  match s with EmptyString => false | _ => true end.

End PyStr.

(** ** [os.path] (POSIX flavour) *)

Module OsPath.

(** [posixpath.basename]: what follows the last slash. *)
Fixpoint basename (p : string) : string :=
  match p with
  | EmptyString => EmptyString
  | String a p' => if PyStr.mem "/" p' then basename p'
                   else if decide (a = "/") then p' else p
  end.

(** [posixpath.join] of two components. *)
Definition join (a b : string) : string :=
  if PyStr.startswith b "/" then b
  else if negb (PyStr.truthy a) || PyStr.endswith a "/" then a +:+ b
  else a +:+ "/" +:+ b.

End OsPath.

(** ** Exceptions *)

Inductive exn_class : Set :=
| RequestException   (* requests.exceptions.RequestException and subclasses *)
| HTTPError          (* requests.exceptions.HTTPError, a RequestException *)
| ValueError
| OSError
| EOFError
| OtherException.

Record exn : Set := Exn { exn_cls : exn_class; exn_msg : string }.

(** [isinstance(e, requests.exceptions.RequestException)] *)
Definition is_RequestException (e : exn) : bool :=
  match exn_cls e with
  | RequestException | HTTPError => true
  | _ => false
  end.

(** ** Data of the libraries *)

(** The six-field result of [urllib.parse.urlparse]. *)
Record ParseResult : Set := {
  scheme : string; netloc : string; path : string;
  params : string; query : string; fragment : string
}.

(** A [requests.Response]: [final_url] is [response.url], the URL of the
    answer once the redirects have been followed, which the script never
    reads; the other fields are what it reads. *)
Record Response : Set := {
  status_code : nat; reason : string; final_url : string; text : string
}.

(** A parsed document, as the sequence of its nodes in document order.  The
    script only walks the tags in that order and changes attributes in
    place, so nesting is not represented. *)
Record Tag : Type := { tag_name : string; tag_attrs : gmap string string }.

Inductive node : Type :=
| NavigableString (s : string)
| Element (t : Tag).

Abbreviation Soup := (list node).

(** ** The world the script acts on *)

Record World : Type := {
  files    : gmap string string;  (* path -> content *)
  dirs     : gset string;         (* directories that exist *)
  requests : list string;         (* URLs of the GET requests issued, oldest first *)
  stdout   : list string;         (* what was printed, oldest first *)
  stdin    : list string          (* lines still to be read by input() *)
}.

Definition set_files (f : gmap string string → gmap string string) (w : World) : World :=
  {| files := f (files w); dirs := dirs w; requests := requests w;
     stdout := stdout w; stdin := stdin w |}.
Definition set_dirs (f : gset string → gset string) (w : World) : World :=
  {| files := files w; dirs := f (dirs w); requests := requests w;
     stdout := stdout w; stdin := stdin w |}.
Definition set_requests (f : list string → list string) (w : World) : World :=
  {| files := files w; dirs := dirs w; requests := f (requests w);
     stdout := stdout w; stdin := stdin w |}.
Definition set_stdout (f : list string → list string) (w : World) : World :=
  {| files := files w; dirs := dirs w; requests := requests w;
     stdout := f (stdout w); stdin := stdin w |}.
Definition set_stdin (f : list string → list string) (w : World) : World :=
  {| files := files w; dirs := dirs w; requests := requests w;
     stdout := stdout w; stdin := f (stdin w) |}.

(** ** The environment: library calls and the faults of the outside world *)

Record Env : Type := {
  (** [urllib.parse.urlparse]; raises [ValueError] on some malformed hosts *)
  urlparse : string → exn + ParseResult;
  (** [urllib.parse.urljoin base ref]; parses both, so it raises likewise *)
  urljoin : string → string → exn + string;
  (** the answer to a GET, given the requests issued before it; the
      redirects [requests] follows on the way are part of the answer *)
  http : list string → string → exn + Response;
  (** [BeautifulSoup(html, 'html.parser')] *)
  BeautifulSoup : string → exn + Soup;
  (** [str(soup)] *)
  soup_str : Soup → exn + string;
  (** faults of the file system: [Some e] makes the call raise [e] *)
  makedirs_fault : World → string → option exn;
  open_fault : World → string → option exn;
  write_fault : World → string → string → option exn
}.

(** ** Computations: state and exceptions *)

Definition M (A : Type) : Type := World → (exn + A) * World.

Definition ret {A} (a : A) : M A := λ w, (inr a, w).

Definition bind {A B} (m : M A) (k : A → M B) : M B :=
  λ w, match m w with
       | (inl e, w') => (inl e, w')
       | (inr a, w') => k a w'
       end.

Definition raise {A} (e : exn) : M A := λ w, (inl e, w).

(** An exception-free library result or a raised exception. *)
Definition lift {A} (r : exn + A) : M A :=
  match r with inl e => raise e | inr a => ret a end.

(** [try: body / except ...: handler e] with a handler for every exception. *)
Definition try_except {A} (body : M A) (handler : exn → M A) : M A :=
  λ w, match body w with
       | (inl e, w') => handler e w'
       | (inr a, w') => (inr a, w')
       end.

Declare Scope py_scope.
Delimit Scope py_scope with py.
Notation "'let*' x ':=' m 'in' k" := (bind m (λ x, k))
  (at level 10, x pattern, m at level 100, k at level 200) : py_scope.
Notation "m ';;;' k" := (bind m (λ _, k))
  (at level 100, k at level 200, right associativity) : py_scope.
Local Open Scope py_scope.

(** [for x in xs: s = body x s] *)
Fixpoint for_each {A S} (xs : list A) (body : A → S → M S) (s : S) : M S :=
  match xs with
  | [] => ret s
  | x :: xs' => let* s' := body x s in for_each xs' body s'
  end.

(** [enumerate(xs, start)] *)
Fixpoint enumerate {A} (start : nat) (xs : list A) : list (nat * A) :=
  match xs with
  | [] => []
  | x :: xs' => (start, x) :: enumerate (S start) xs'
  end.

(** ** Primitive effects *)

(** [print(s)].  The console takes every line: a [print] that raises (a
    console that cannot encode a character, a closed stream) is not
    represented. *)
Definition print (s : string) : M unit :=
  λ w, (inr (), set_stdout (λ o, o ++ [s]) w).

(** [input(prompt)]: the prompt goes to the console, a line is consumed. *)
Definition input (prompt : string) : M string :=
  λ w, let w := set_stdout (λ o, o ++ [prompt]) w in
       match stdin w with
       | [] => (inl (Exn EOFError "EOF when reading a line"), w)
       | l :: ls => (inr l, set_stdin (λ _, ls) w)
       end.

(** [requests.get(url, headers=headers, timeout=10)]: the request is logged
    and answered by the environment. *)
Definition requests_get (E : Env) (url : string) : M Response :=
  λ w, (http E (requests w) url, set_requests (λ r, r ++ [url]) w).

(** [response.raise_for_status()]: [HTTPError] on 4xx and 5xx. *)
Definition raise_for_status (r : Response) : M unit :=
  if (400 <=? status_code r)%nat && (status_code r <? 500)%nat then
    raise (Exn HTTPError (pretty (status_code r) +:+ " Client Error: " +:+ reason r))
  else if (500 <=? status_code r)%nat && (status_code r <? 600)%nat then
    raise (Exn HTTPError (pretty (status_code r) +:+ " Server Error: " +:+ reason r))
  else ret ().

(** [os.path.exists(p)] *)
Definition os_path_exists (p : string) : M bool :=
  λ w, (inr (bool_decide (p ∈ dirs w ∨ is_Some (files w !! p))), w).

(** [os.makedirs(p)] for a name without separators. *)
Definition os_makedirs (E : Env) (p : string) : M unit :=
  λ w, match makedirs_fault E w p with
       | Some e => (inl e, w)
       | None =>
           if bool_decide (p ∈ dirs w ∨ is_Some (files w !! p))
           then (inl (Exn OSError ("File exists: " +:+ p)), w)
           else (inr (), set_dirs (λ d, {[p]} ∪ d) w)
       end.

(** [open(p, 'w', encoding='utf-8')]: creates or truncates the file. *)
Definition open_w (E : Env) (p : string) : M unit :=
  λ w, match open_fault E w p with
       | Some e => (inl e, w)
       | None => (inr (), set_files (λ f, <[p := EmptyString]> f) w)
       end.

(** [f.write(s)] followed by the close of the [with] block. *)
Definition write (E : Env) (p s : string) : M unit :=
  λ w, match write_fault E w p s with
       | Some e => (inl e, w)
       | None => (inr (), set_files (λ f, <[p := s]> f) w)
       end.

(** ** [sanitize_url_for_directory] *)

Definition invalid_chars : list ascii := ["<"; ">"; ":"; "034"; "|"; "?"; "*"].
Definition separators : list ascii := ["/"; "092"].

Definition sanitize_url_for_directory (E : Env) (url : string) : exn + string :=
  match urlparse E url with
  | inl e => inl e
  | inr parsed =>
      let dir_name :=
        if PyStr.truthy (netloc parsed) then netloc parsed +:+ path parsed
        else path parsed in
      let dir_name := PyStr.strip ["/"] dir_name in
      let dir_name := PyStr.re_sub_class invalid_chars "_" dir_name in
      let dir_name := PyStr.re_sub_class separators "_" dir_name in
      let dir_name :=
        if negb (PyStr.truthy dir_name) then "extracted_page"%string
        else dir_name in
      inr dir_name
  end.

(** ** [extract_html_from_url] *)

(** Lines 45-46: [https://] is put in front of a URL without a scheme. *)
Definition with_scheme (url : string) : string :=
  if negb (PyStr.startswith_any url ["http://"; "https://"]%string)
  then "https://" +:+ url else url.

(** The tuple the function returns; [(None, None, None, None)] on error. *)
Definition fetched : Type :=
  option string * option string * option string * option string.

Definition no_result : fetched := (None, None, None, None).

Definition extract_html_from_url (E : Env) (url : string) : M fetched :=
  try_except
    (let url := with_scheme url in
     print ("Fetching HTML from: " +:+ url) ;;;
     let* response := requests_get E url in
     raise_for_status response ;;;
     let* dir_name := lift (sanitize_url_for_directory E url) in
     let* present := os_path_exists dir_name in
     (if negb present then
        os_makedirs E dir_name ;;;
        print ("Created directory: " +:+ dir_name)
      else ret ()) ;;;
     let html_file_path := OsPath.join dir_name "index.html" in
     open_w E html_file_path ;;;
     write E html_file_path (text response) ;;;
     print ("HTML successfully saved to: " +:+ html_file_path) ;;;
     ret (Some html_file_path, Some (text response), Some url, Some dir_name))
    (λ e, if is_RequestException e then
            print ("Error fetching URL: " +:+ exn_msg e) ;;; ret no_result
          else
            print ("Error: " +:+ exn_msg e) ;;; ret no_result).

(** ** The parsed document *)

(** The tokens of a multi-valued attribute such as [rel]: the runs of
    characters that are not whitespace.  [cur] is the token being read,
    backwards; [n] bounds the steps. *)
Fixpoint split_ws_go (n : nat) (cur : option string) (s : string) : list string :=
  match n with
  | O => option_list (String.rev <$> cur)
  | S n' =>
      match PyStr.cut_any PyStr.whitespace s with
      | Some s' => option_list (String.rev <$> cur) ++ split_ws_go n' None s'
      | None =>
          match s with
          | EmptyString => option_list (String.rev <$> cur)
          | String a s' =>
              split_ws_go n' (Some (String a (default EmptyString cur))) s'
          end
      end
  end.

Definition split_ws (s : string) : list string :=
  split_ws_go (String.length s) None s.

(** The filter of [soup.find_all('link', rel='stylesheet')]: a [link] tag
    one of whose [rel] tokens is [stylesheet]. *)
Definition is_stylesheet_link (n : node) : bool :=
  match n with
  | NavigableString _ => false
  | Element t =>
      bool_decide (tag_name t = "link"%string) &&
      match tag_attrs t !! "rel"%string with
      | Some v => bool_decide ("stylesheet"%string ∈ split_ws v)
      | None => false
      end
  end.

Fixpoint find_all_from (i : nat) (soup : Soup) : list nat :=
  match soup with
  | [] => []
  | n :: rest =>
      if is_stylesheet_link n then i :: find_all_from (S i) rest
      else find_all_from (S i) rest
  end.

(** The matching tags in document order, each named by its position. *)
Definition find_all_stylesheet_links (soup : Soup) : list nat :=
  find_all_from 0 soup.

(** [tag.get(key)] on the tag at position [i]. *)
Definition tag_get (soup : Soup) (i : nat) (key : string) : option string :=
  match soup !! i with
  | Some (Element t) => tag_attrs t !! key
  | _ => None
  end.

Definition node_set (key v : string) (n : node) : node :=
  match n with
  | Element t => Element {| tag_name := tag_name t;
                            tag_attrs := <[key := v]> (tag_attrs t) |}
  | NavigableString s => NavigableString s
  end.

(** [tag[key] = v] on the tag at position [i]: the document changes in place. *)
Definition tag_set (soup : Soup) (i : nat) (key v : string) : Soup :=
  alter (node_set key v) i soup.

(** ** [extract_linked_styles] *)

Definition nl : string := String "010" EmptyString.
Definition check_mark : string :=
  String "226" (String "156" (String "147" EmptyString)).
Definition cross_mark : string :=
  String "226" (String "156" (String "151" EmptyString)).

(** Lines 128-133: the local file name of a downloaded stylesheet. *)
Definition css_filename_of (E : Env) (idx : nat) (css_url : string) : exn + string :=
  match urlparse E css_url with
  | inl e => inl e
  | inr parsed_css_url =>
      let css_filename := OsPath.basename (path parsed_css_url) in
      inr (if negb (PyStr.truthy css_filename)
              || negb (PyStr.endswith css_filename ".css")
           then "style_" +:+ pretty idx +:+ ".css"
           else css_filename)
  end.

(** Lines 113-151: the body of the loop, for the link at position [link] of
    the document with loop index [idx].  The state is the document and
    [downloaded_files]. *)
Definition mirror_link (E : Env) (base_url dir_name : string) (total : nat)
    (item : nat * nat) (st : Soup * list string) : M (Soup * list string) :=
  let '(idx, link) := item in
  let '(soup, downloaded_files) := st in
  match tag_get soup link "href" with
  | None => ret st
  | Some href =>
      if negb (PyStr.truthy href) then ret st
      else
        let* css_url := lift (urljoin E base_url href) in
        try_except
          (print ("  [" +:+ pretty idx +:+ "/" +:+ pretty total
                  +:+ "] Downloading: " +:+ css_url) ;;;
           let* response := requests_get E css_url in
           raise_for_status response ;;;
           let* css_filename := lift (css_filename_of E idx css_url) in
           let css_file_path := OsPath.join dir_name css_filename in
           open_w E css_file_path ;;;
           write E css_file_path (text response) ;;;
           let soup := tag_set soup link "href" css_filename in
           let downloaded_files := downloaded_files ++ [css_filename] in
           print ("    " +:+ check_mark +:+ " Saved to: " +:+ css_filename) ;;;
           ret (soup, downloaded_files))
          (λ e, if is_RequestException e then
                  print ("    " +:+ cross_mark +:+ " Error downloading "
                         +:+ css_url +:+ ": " +:+ exn_msg e) ;;; ret st
                else
                  print ("    " +:+ cross_mark +:+ " Error processing "
                         +:+ css_url +:+ ": " +:+ exn_msg e) ;;; ret st)
  end.

(** Lines 110-151: the loop over [enumerate(stylesheet_links, 1)], entered
    with [downloaded_files = []]. *)
Definition mirror_links (E : Env) (base_url dir_name : string) (soup : Soup)
    (stylesheet_links : list nat) : M (Soup * list string) :=
  for_each (enumerate 1 stylesheet_links)
    (mirror_link E base_url dir_name (length stylesheet_links))
    (soup, []).

Definition extract_linked_styles (E : Env) (html_content base_url dir_name : string)
    : M bool :=
  try_except
    (let* soup := lift (BeautifulSoup E html_content) in
     let stylesheet_links := find_all_stylesheet_links soup in
     match stylesheet_links with
     | [] => print "No linked stylesheets found." ;;; ret true
     | _ =>
         print (nl +:+ "Found " +:+ pretty (length stylesheet_links)
                +:+ " stylesheet(s) to extract...") ;;;
         let* (soup, downloaded_files) :=
           mirror_links E base_url dir_name soup stylesheet_links in
         let html_file_path := OsPath.join dir_name "index.html" in
         open_w E html_file_path ;;;
         let* out := lift (soup_str E soup) in
         write E html_file_path out ;;;
         print (nl +:+ check_mark +:+ " Successfully extracted "
                +:+ pretty (length downloaded_files) +:+ " stylesheet(s)") ;;;
         ret true
     end)
    (λ e, print ("Error extracting styles: " +:+ exn_msg e) ;;; ret false).

(** ** [main] *)

Fixpoint str_times (n : nat) (s : string) : string :=
  match n with O => EmptyString | S n' => s +:+ str_times n' s end.

Definition main (E : Env) : M unit :=
  print "HTML Extractor Tool" ;;;
  print (str_times 50 "=") ;;;
  let* line := input "Enter the URL to extract HTML from: " in
  let url := PyStr.strip_ws line in
  if negb (PyStr.truthy url) then
    print "Error: URL cannot be empty."
  else
    let* r := extract_html_from_url E url in
    let failed := print (nl +:+ cross_mark +:+ " Failed to extract HTML.") in
    match r with
    | (Some html_file_path, Some html_content, Some base_url, Some dir_name) =>
        (* the four components are present together *)
        if PyStr.truthy html_file_path then
          print (nl +:+ check_mark +:+ " Success! HTML file saved at: "
                 +:+ html_file_path) ;;;
          let* answer :=
            input (nl +:+ "Do you want to extract linked styles? (y/n): ") in
          let extract_styles := PyStr.lower (PyStr.strip_ws answer) in
          if bool_decide (extract_styles ∈ ["y"; "yes"]%string) then
            print (nl +:+ "Extracting linked stylesheets...") ;;;
            extract_linked_styles E html_content base_url dir_name ;;;
            ret ()
          else
            print "Skipping style extraction."
        else failed
    | _ => failed
    end.

(** ** A reference environment

    The theorems below hold for every environment.  Concrete runs need one:
    [Urllib] follows [urllib.parse] on ASCII URLs without control
    characters (bracketed hosts are only checked for balance), and [Demo]
    scripts a small site. *)

Module Urllib.

Definition is_alpha (c : ascii) : bool :=
  let n := nat_of_ascii (PyStr.lower_char c) in (97 <=? n)%nat && (n <=? 122)%nat.
Definition is_digit (c : ascii) : bool :=
  let n := nat_of_ascii c in (48 <=? n)%nat && (n <=? 57)%nat.
Definition scheme_char (c : ascii) : bool :=
  is_alpha c || is_digit c || bool_decide (c ∈ ["+"; "-"; "."]).

Fixpoint all_chars (p : ascii → bool) (s : string) : bool :=
  match s with
  | EmptyString => true
  | String a s' => p a && all_chars p s'
  end.

(** [s.split(c, 1)]-like cut at the first character among [cs]: the part
    before it, and the part from it on (empty when there is none). *)
Fixpoint break_at (cs : list ascii) (s : string) : string * string :=
  match s with
  | EmptyString => (EmptyString, EmptyString)
  | String a s' =>
      if decide (a ∈ cs) then (EmptyString, s)
      else let '(l, r) := break_at cs s' in (String a l, r)
  end.

Definition tail (s : string) : string :=
  match s with EmptyString => EmptyString | String _ s' => s' end.

(** [s.split(c)] *)
Fixpoint split (c : ascii) (s : string) : list string :=
  match s with
  | EmptyString => [EmptyString]
  | String a s' =>
      if decide (a = c) then EmptyString :: split c s'
      else match split c s' with
           | [] => [String a EmptyString]
           | x :: xs => String a x :: xs
           end
  end.

(** [sep.join(xs)] *)
Fixpoint join (sep : string) (xs : list string) : string :=
  match xs with
  | [] => EmptyString
  | [x] => x
  | x :: xs' => x +:+ sep +:+ join sep xs'
  end.

Definition uses_relative : list string :=
  [EmptyString; "ftp"; "http"; "gopher"; "nntp"; "imap"; "wais"; "file";
   "https"; "shttp"; "mms"; "prospero"; "rtsp"; "rtspu"; "sftp"; "svn";
   "svn+ssh"; "ws"; "wss"]%string.
Definition uses_netloc : list string :=
  [EmptyString; "ftp"; "http"; "gopher"; "nntp"; "telnet"; "imap"; "wais";
   "file"; "mms"; "https"; "shttp"; "snews"; "prospero"; "rtsp"; "rtspu";
   "rsync"; "svn"; "svn+ssh"; "sftp"; "nfs"; "git"; "git+ssh"; "ws";
   "wss"; "itms-services"]%string.
Definition uses_params : list string :=
  [EmptyString; "ftp"; "hdl"; "prospero"; "http"; "imap"; "https"; "shttp";
   "rtsp"; "rtspu"; "sip"; "sips"; "mms"; "sftp"; "tel"]%string.

(** [urlsplit(url, default_scheme)] *)
Definition urlsplit (default_scheme url : string)
    : exn + (string * string * string * string * string) :=
  let '(pre, rest) := break_at [":"] url in
  let '(scheme, url) :=
    match pre, rest with
    | String a _, String _ after =>
        if is_alpha a && all_chars scheme_char pre
        then (PyStr.lower pre, after) else (default_scheme, url)
    | _, _ => (default_scheme, url)
    end in
  let '(netloc, url) :=
    if PyStr.startswith url "//"
    then break_at ["/"; "?"; "#"] (tail (tail url))
    else (EmptyString, url) in
  if xorb (PyStr.mem "[" netloc) (PyStr.mem "]" netloc)
  then inl (Exn ValueError "Invalid IPv6 URL")
  else
    let '(url, frag) := break_at ["#"] url in
    let '(url, qry) := break_at ["?"] url in
    inr (scheme, netloc, url, tail qry, tail frag).

(** [_splitparams] *)
Definition splitparams (url : string) : string * string :=
  let segs := split "/" url in
  match reverse segs with
  | [] => (url, EmptyString)
  | last :: before =>
      let '(l, p) := break_at [";"] last in
      (join "/" (reverse (l :: before)), tail p)
  end.

Definition urlparse_with (default_scheme url : string) : exn + ParseResult :=
  match urlsplit default_scheme url with
  | inl e => inl e
  | inr (sch, loc, url, qry, frag) =>
      let '(url, prm) :=
        if bool_decide (sch ∈ uses_params) && PyStr.mem ";" url
        then splitparams url else (url, EmptyString) in
      inr {| scheme := sch; netloc := loc; path := url; params := prm;
             query := qry; fragment := frag |}
  end.

Definition urlparse : string → exn + ParseResult := urlparse_with EmptyString.

Definition urlunparse (p : ParseResult) : string :=
  let url := if PyStr.truthy (params p) then path p +:+ ";" +:+ params p
             else path p in
  let url :=
    if PyStr.truthy (netloc p)
       || (PyStr.truthy (scheme p) && bool_decide (scheme p ∈ uses_netloc)
           && negb (PyStr.startswith url "//"))
    then "//" +:+ netloc p +:+
         (if PyStr.truthy url && negb (PyStr.startswith url "/")
          then "/" +:+ url else url)
    else url in
  let url := if PyStr.truthy (scheme p) then scheme p +:+ ":" +:+ url else url in
  let url := if PyStr.truthy (query p) then url +:+ "?" +:+ query p else url in
  if PyStr.truthy (fragment p) then url +:+ "#" +:+ fragment p else url.

(** Removal of the dot segments, with a stack of the segments kept. *)
Fixpoint resolve_dots (segs stack : list string) : list string :=
  match segs with
  | [] => reverse stack
  | seg :: segs' =>
      if decide (seg = ".."%string) then resolve_dots segs' (List.tl stack)
      else if decide (seg = "."%string) then resolve_dots segs' stack
      else resolve_dots segs' (seg :: stack)
  end.

(** [segments[1:-1] = filter(None, segments[1:-1])] *)
Definition drop_inner_empty (segs : list string) : list string :=
  match segs with
  | [] => []
  | first :: rest =>
      match reverse rest with
      | [] => [first]
      | last :: inner =>
          first :: filter (λ x, PyStr.truthy x = true) (reverse inner) ++ [last]
      end
  end.

Definition urljoin (base url : string) : exn + string :=
  if negb (PyStr.truthy base) then inr url
  else if negb (PyStr.truthy url) then inr base
  else
    match urlparse base with
    | inl e => inl e
    | inr b =>
        match urlparse_with (scheme b) url with
        | inl e => inl e
        | inr u =>
            if negb (bool_decide (scheme u = scheme b))
               || negb (bool_decide (scheme u ∈ uses_relative))
            then inr url
            else if bool_decide (scheme u ∈ uses_netloc) && PyStr.truthy (netloc u)
            then inr (urlunparse u)
            else
              let loc := if bool_decide (scheme u ∈ uses_netloc) then netloc b
                         else netloc u in
              if negb (PyStr.truthy (path u)) && negb (PyStr.truthy (params u))
              then inr (urlunparse
                     {| scheme := scheme u; netloc := loc; path := path b;
                        params := params b;
                        query := if PyStr.truthy (query u) then query u else query b;
                        fragment := fragment u |})
              else
                let base_parts := split "/" (path b) in
                let base_parts :=
                  match reverse base_parts with
                  | last :: before =>
                      if PyStr.truthy last then reverse before else base_parts
                  | [] => base_parts
                  end in
                let segments :=
                  if PyStr.startswith (path u) "/" then split "/" (path u)
                  else drop_inner_empty (base_parts ++ split "/" (path u)) in
                let resolved := resolve_dots segments [] in
                let resolved :=
                  match reverse segments with
                  | last :: _ =>
                      if bool_decide (last ∈ ["."; ".."]%string)
                      then resolved ++ [EmptyString] else resolved
                  | [] => resolved
                  end in
                let joined := join "/" resolved in
                inr (urlunparse
                       {| scheme := scheme u; netloc := loc;
                          path := if PyStr.truthy joined then joined else "/";
                          params := params u; query := query u;
                          fragment := fragment u |})
        end
    end.

End Urllib.

(** A scripted site, parser and printer for concrete runs. *)
Module Demo.

Definition quote : string := String "034" EmptyString.

Definition render_attr (kv : string * string) : string :=
  " " +:+ kv.1 +:+ "=" +:+ quote +:+ kv.2 +:+ quote.

Definition render_node (n : node) : string :=
  match n with
  | NavigableString s => s
  | Element t =>
      "<" +:+ tag_name t
      +:+ Urllib.join EmptyString (render_attr <$> map_to_list (tag_attrs t))
      +:+ ">"
  end.

(** The printer standing for [str(soup)]. *)
Definition render (soup : Soup) : string :=
  Urllib.join EmptyString (render_node <$> soup).

Definition tag (name : string) (attrs : list (string * string)) : node :=
  Element {| tag_name := name; tag_attrs := list_to_map attrs |}.

Definition stylesheet (href : string) : node :=
  tag "link" [("rel", "stylesheet"); ("href", href)]%string.

(** The page of the end-to-end scenario: one stylesheet link. *)
Definition page_soup : Soup :=
  [stylesheet "/css/main.css"; NavigableString "Hello"].

(** A missing stylesheet, a good one, a reference that does not resolve,
    and one more good stylesheet. *)
Definition broken_soup : Soup :=
  [stylesheet "/missing.css"; stylesheet "/css/main.css";
   stylesheet "//["; stylesheet "/css/late.css"].

(** A link without a reference, a link with an empty one, a missing
    stylesheet, a good one, and one whose URL ends in a slash. *)
Definition mixed_soup : Soup :=
  [tag "link" [("rel", "stylesheet")]%string; stylesheet EmptyString;
   stylesheet "/missing.css"; NavigableString "text";
   stylesheet "/css/main.css"; stylesheet "theme/"].

(** No stylesheet link at all. *)
Definition plain_soup : Soup :=
  [tag "a" [("href", "/next")]%string; NavigableString "Hello";
   tag "link" [("rel", "icon"); ("href", "/favicon.ico")]%string].

(** A page that has moved: its one stylesheet link is relative to the
    place it is served from. *)
Definition moved_soup : Soup :=
  [stylesheet "style.css"; NavigableString "Moved"].

Definition documents : list Soup :=
  [page_soup; broken_soup; mixed_soup; plain_soup; moved_soup].

(** The parser: the documents above are recognised by their text, any
    other text is one string. *)
Definition parse (html : string) : exn + Soup :=
  match filter (λ d, render d = html) documents with
  | d :: _ => inr d
  | [] => inr [NavigableString html]
  end.

Definition ok (url body : string) : exn + Response :=
  inr {| status_code := 200; reason := "OK"; final_url := url; text := body |}.

(** The answer to a request for [/old]: the server redirects to
    [/new/page], the client follows, and the page comes from there. *)
Definition moved_answer : Response :=
  {| status_code := 200; reason := "OK";
     final_url := "https://example.com/new/page";
     text := render moved_soup |}.

(** The answer to a request for [/cached]: neither a success nor an
    error. *)
Definition cached_answer : Response :=
  {| status_code := 304; reason := "Not Modified";
     final_url := "https://example.com/cached"; text := "unchanged" |}.

Definition missing_answer : Response :=
  {| status_code := 404; reason := "Not Found";
     final_url := "https://example.com/missing.css"; text := "gone" |}.

(** The site: four pages, a page that has moved and one that answers 304,
    four stylesheets, one missing stylesheet; no other host answers. *)
Definition site (hist : list string) (url : string) : exn + Response :=
  if decide (url = "https://example.com/page"%string) then ok url (render page_soup)
  else if decide (url = "https://example.com/broken"%string) then ok url (render broken_soup)
  else if decide (url = "https://example.com/mixed"%string) then ok url (render mixed_soup)
  else if decide (url = "https://example.com/plain"%string) then ok url (render plain_soup)
  else if decide (url = "https://example.com/old"%string) then inr moved_answer
  else if decide (url = "https://example.com/new/page"%string) then inr moved_answer
  else if decide (url = "https://example.com/cached"%string) then inr cached_answer
  else if decide (url = "https://example.com/css/main.css"%string) then ok url "body{}"
  else if decide (url = "https://example.com/css/late.css"%string) then ok url "a{}"
  else if decide (url = "https://example.com/theme/"%string) then ok url "p{}"
  else if decide (url = "https://example.com/new/style.css"%string) then ok url "new{}"
  else if decide (url = "https://example.com/missing.css"%string) then inr missing_answer
  else inl (Exn RequestException "Connection refused").

Definition env : Env :=
  {| urlparse := Urllib.urlparse;
     urljoin := Urllib.urljoin;
     http := site;
     BeautifulSoup := parse;
     soup_str := λ soup, inr (render soup);
     makedirs_fault := λ _ _, None;
     open_fault := λ _ _, None;
     write_fault := λ _ _ _, None |}.

(** The same, on a file system that refuses every new file. *)
Definition read_only_env : Env :=
  {| urlparse := Urllib.urlparse;
     urljoin := Urllib.urljoin;
     http := site;
     BeautifulSoup := parse;
     soup_str := λ soup, inr (render soup);
     makedirs_fault := λ _ _, None;
     open_fault := λ _ _, Some (Exn OSError "Permission denied");
     write_fault := λ _ _ _, None |}.

(** An empty disk, nothing requested, nothing printed, and the lines the
    user will type. *)
Definition world (typed : list string) : World :=
  {| files := ∅; dirs := ∅; requests := []; stdout := []; stdin := typed |}.

(** The world after the page at [url] has been fetched. *)
Definition fetched_world (url : string) : World :=
  (extract_html_from_url env url (world [])).2.

(** The loop of the mirror on the page [mixed_soup], after its fetch. *)
Definition mixed_loop : (exn + Soup * list string) * World :=
  mirror_links env "https://example.com/mixed" "example.com_mixed" mixed_soup
    (find_all_stylesheet_links mixed_soup)
    (fetched_world "example.com/mixed").

(** The pass of the mirror on the page [broken_soup], after its fetch. *)
Definition broken_run : (exn + bool) * World :=
  extract_linked_styles env (render broken_soup) "https://example.com/broken"
    "example.com_broken" (fetched_world "example.com/broken").

(** The fetch of the page that has moved, and the pass of the mirror on
    what it returned. *)
Definition moved_fetch : (exn + fetched) * World :=
  extract_html_from_url env "example.com/old" (world []).

Definition moved_run : (exn + bool) * World :=
  extract_linked_styles env (render moved_soup) "https://example.com/old"
    "example.com_old" moved_fetch.2.

(** The fetch of the page that answers 304. *)
Definition cached_fetch : (exn + fetched) * World :=
  extract_html_from_url env "example.com/cached" (world []).

(** A line of blanks: a space, U+2003, a tab and U+3000. *)
Definition blank_line : string :=
  Stdlib.Strings.String.string_of_list_ascii
    [" "; "226"; "128"; "131"; "009"; "227"; "128"; "128"].

Definition mixed_loop_soup : Soup :=
  match mixed_loop.1 with inr (soup, _) => soup | inl _ => [] end.

Definition mixed_loop_names : list string :=
  match mixed_loop.1 with inr (_, names) => names | inl _ => [] end.

End Demo.

(** ** The ways a fetch fails *)

(** The world when the answer to the request is in (line 54). *)
Definition requested (url : string) (w : World) : World :=
  set_requests (λ r, r ++ [url])
    (set_stdout (λ o, o ++ ["Fetching HTML from: " +:+ url]) w).

(** The world when the directory is in place (lines 61-63). *)
Definition with_dir (d : string) (w : World) : World :=
  if bool_decide (d ∈ dirs w ∨ is_Some (files w !! d)) then w
  else set_stdout (λ o, o ++ ["Created directory: " +:+ d])
         (set_dirs (λ ds, {[d]} ∪ ds) w).

(** The world when [index.html] has been opened for writing (line 67). *)
Definition opened (p : string) (w : World) : World :=
  set_files (λ f, <[p := EmptyString]> f) w.

(** The status codes [raise_for_status] rejects. *)
Definition error_status (r : Response) : Prop :=
  (400 ≤ status_code r < 600)%nat.

Inductive fetch_failure (E : Env) (url : string) (w : World) : Prop :=
| network_error e :
    http E (requests w) (with_scheme url) = inl e →
    fetch_failure E url w
| http_status_error r :
    http E (requests w) (with_scheme url) = inr r →
    error_status r →
    fetch_failure E url w
| dir_name_error e :
    sanitize_url_for_directory E (with_scheme url) = inl e →
    fetch_failure E url w
| makedirs_error d e :
    sanitize_url_for_directory E (with_scheme url) = inr d →
    ¬ (d ∈ dirs w ∨ is_Some (files w !! d)) →
    makedirs_fault E (requested (with_scheme url) w) d = Some e →
    fetch_failure E url w
| open_error d e :
    sanitize_url_for_directory E (with_scheme url) = inr d →
    open_fault E (with_dir d (requested (with_scheme url) w))
      (OsPath.join d "index.html") = Some e →
    fetch_failure E url w
| write_error d r e :
    sanitize_url_for_directory E (with_scheme url) = inr d →
    http E (requests w) (with_scheme url) = inr r →
    write_fault E
      (opened (OsPath.join d "index.html")
         (with_dir d (requested (with_scheme url) w)))
      (OsPath.join d "index.html") (text r) = Some e →
    fetch_failure E url w.

(** ** What the mirror does with one link *)

(** The reference of a link, when it has one that is not empty (lines
    113-115). *)
Definition reference (soup : Soup) (link : nat) : option string :=
  match tag_get soup link "href" with
  | Some href => if PyStr.truthy href then Some href else None
  | None => None
  end.

(** The URL the stylesheet of a link is requested from (line 118). *)
Definition css_url_of (E : Env) (base_url : string) (soup : Soup) (link : nat)
    : option string :=
  match reference soup link with
  | Some href =>
      match urljoin E base_url href with
      | inr css_url => Some css_url
      | inl _ => None
      end
  | None => None
  end.

(** The ways the download of [css_url] fails for the link of index [idx],
    when [hist] are the requests issued before it (lines 120-151). *)
Inductive download_failure (E : Env) (dir_name : string) (idx : nat)
    (hist : list string) (css_url : string) : Prop :=
| css_request_error e :
    http E hist css_url = inl e →
    download_failure E dir_name idx hist css_url
| css_status_error r :
    http E hist css_url = inr r →
    error_status r →
    download_failure E dir_name idx hist css_url
| css_filename_error e :
    css_filename_of E idx css_url = inl e →
    download_failure E dir_name idx hist css_url
| css_open_error name w0 e :
    css_filename_of E idx css_url = inr name →
    open_fault E w0 (OsPath.join dir_name name) = Some e →
    download_failure E dir_name idx hist css_url
| css_write_error name w0 t e :
    css_filename_of E idx css_url = inr name →
    write_fault E w0 (OsPath.join dir_name name) t = Some e →
    download_failure E dir_name idx hist css_url.

(** The stylesheet of [css_url] was saved as [name]. *)
Definition download_success (E : Env) (idx : nat) (hist : list string)
    (css_url name : string) (r : Response) : Prop :=
  http E hist css_url = inr r ∧ ¬ error_status r ∧
  css_filename_of E idx css_url = inr name.

(** What became of the link at position [link], of loop index [idx], when
    the loop is over: [soup] is the document before the loop, [soup'],
    [dl'] and [w'] are the document, [downloaded_files] and the world
    after it, [hist] the requests issued before this link's. *)
Definition link_outcome (E : Env) (base_url dir_name : string)
    (soup soup' : Soup) (dl' : list string) (w' : World)
    (hist : list string) (idx link : nat) : Prop :=
  match css_url_of E base_url soup link with
  | None => tag_get soup' link "href" = tag_get soup link "href"
  | Some u =>
      (download_failure E dir_name idx hist u ∧
       tag_get soup' link "href" = tag_get soup link "href")
      ∨
      (∃ r name,
         download_success E idx hist u name r ∧
         tag_get soup' link "href" = Some name ∧
         name ∈ dl' ∧
         is_Some (files w' !! OsPath.join dir_name name))
  end.

(** What holds when the loop over [links], entered with index [k],
    document [soup], [downloaded_files = dl] and world [w], is over with
    [res]. *)
Definition loop_post (E : Env) (base_url dir_name : string) (links : list nat)
    (k : nat) (soup : Soup) (dl : list string) (w : World)
    (res : (exn + Soup * list string) * World) : Prop :=
  match res with
  | (inl e, w') =>
      ∃ i l href,
        links !! i = Some l ∧ reference soup l = Some href ∧
        urljoin E base_url href = inl e ∧
        requests w' = requests w ++ omap (css_url_of E base_url soup) (take i links)
  | (inr (soup', dl'), w') =>
      requests w' = requests w ++ omap (css_url_of E base_url soup) links ∧
      dirs w' = dirs w ∧
      (∀ p, is_Some (files w !! p) → is_Some (files w' !! p)) ∧
      (∀ j, j ∉ links → soup' !! j = soup !! j) ∧
      length soup' = length soup ∧
      (∀ l, l ∈ links → is_Some (reference soup l) →
            is_Some (css_url_of E base_url soup l)) ∧
      (∀ name, name ∈ dl → name ∈ dl') ∧
      (∀ i l, links !! i = Some l →
         link_outcome E base_url dir_name soup soup' dl' w'
           (requests w ++ omap (css_url_of E base_url soup) (take i links))
           (k + i) l) ∧
      (∀ name, name ∈ dl' → name ∈ dl ∨
         ∃ i l u, links !! i = Some l ∧
                  css_url_of E base_url soup l = Some u ∧
                  css_filename_of E (k + i) u = inr name ∧
                  tag_get soup' l "href" = Some name ∧
                  is_Some (files w' !! OsPath.join dir_name name))
  end.

(** The world when the number of links has been announced (line 104). *)
Definition announced (n : nat) (w : World) : World :=
  set_stdout (λ o, o ++ [nl +:+ "Found " +:+ pretty n
                         +:+ " stylesheet(s) to extract..."]) w.

(** ** The downloads of a pass, one by one *)




(** ** What the mirror may change *)

(** From [w] to [w'] no directory appeared, no input was read, no file was
    removed, and only files named [dir_name/name], for the file name
    [name] of some stylesheet, were written. *)
Definition mirror_frame (E : Env) (dir_name : string) (w w' : World) : Prop :=
  dirs w' = dirs w ∧
  stdin w' = stdin w ∧
  (∀ q, is_Some (files w !! q) → is_Some (files w' !! q)) ∧
  (∀ q, (∀ idx css_url name, css_filename_of E idx css_url = inr name →
                             q ≠ OsPath.join dir_name name) →
        files w' !! q = files w !! q).

(** [soup'] is [soup] with the [href] of some of the tags at the positions
    [links] replaced. *)
Definition rewritten (links : list nat) (soup soup' : Soup) : Prop :=
  length soup' = length soup ∧
  ∀ j n, soup !! j = Some n →
    ∃ n', soup' !! j = Some n' ∧
          (n' = n ∨ (j ∈ links ∧ ∃ v, n' = node_set "href" v n)).

(** ** The worlds of the driver *)

(** The world when the line typed at the first prompt has been read, [rest]
    being the lines not read yet (line 174). *)
Definition asked_url (rest : list string) (w : World) : World :=
  set_stdin (λ _, rest)
    (set_stdout (λ o, o ++ ["Enter the URL to extract HTML from: "%string])
       (set_stdout (λ o, o ++ [str_times 50 "="])
          (set_stdout (λ o, o ++ ["HTML Extractor Tool"%string]) w))).

(** The world when the answer to the second prompt has been read, after a
    fetch that saved [html_file_path] and ended in [w] (line 187). *)
Definition asked_styles (html_file_path : string) (rest : list string)
    (w : World) : World :=
  set_stdin (λ _, rest)
    (set_stdout
       (λ o, o ++ [nl +:+ "Do you want to extract linked styles? (y/n): "])
       (set_stdout
          (λ o, o ++ [nl +:+ check_mark +:+ " Success! HTML file saved at: "
                      +:+ html_file_path]) w)).

(** ** Reasoning about runs *)

(** [wp m Q w]: running [m] from [w] ends in a result and a world that
    satisfy [Q]. *)
Definition wp {A} (m : M A) (Q : exn + A → World → Prop) (w : World) : Prop :=
  Q (m w).1 (m w).2.

(** * Properties *)

(** ** Strings *)

Lemma mem_re_sub_class_in cls r s c :
  c ≠ r → c ∈ cls → PyStr.mem c (PyStr.re_sub_class cls r s) = false.
Proof.
  intros Hr Hc. induction s as [|a s IH]; simpl; [done|].
  destruct (decide (a ∈ cls)); destruct (decide _) as [Heq|]; by subst.
Qed.

Lemma mem_re_sub_class_keep cls r s c :
  c ≠ r → PyStr.mem c s = false → PyStr.mem c (PyStr.re_sub_class cls r s) = false.
Proof.
  intros Hr. induction s as [|a s IH]; simpl; [done|].
  destruct (decide (a = c)) as [->|Hne]; [done|]. intros Hs.
  destruct (decide (a ∈ cls)); destruct (decide _); try done; auto.
Qed.

Lemma startswith_spec s p :
  PyStr.startswith s p = true ↔ ∃ rest, s = p +:+ rest.
Proof.
  unfold PyStr.startswith. revert s.
  induction p as [|a p IH]; intros s.
  - destruct s; simpl; split; eauto.
  - destruct s as [|b s]; simpl.
    + split; [done|]. by intros [? ?].
    + destruct (ascii_dec a b) as [->|Hne].
      * rewrite IH. split; intros [rest Hr]; exists rest.
        -- by rewrite Hr.
        -- by injection Hr.
      * split; [done|]. intros [rest Hr]. injection Hr. congruence.
Qed.

(** ** C2: the directory name *)

(** C2. The directory name is a function of the URL alone (two
    applications to a URL give the same name); a name that is returned
    contains none of the characters < > : double-quote | ? * and no slash
    or backslash; and when host plus path is empty once the slashes at both
    ends are trimmed, the name is the literal extracted_page. *)
Theorem sanitize_url_for_directory_safe (E : Env) (url : string) :
  (∀ d1 d2, sanitize_url_for_directory E url = inr d1 →
            sanitize_url_for_directory E url = inr d2 → d1 = d2) ∧
  (∀ d c, sanitize_url_for_directory E url = inr d →
     c ∈ invalid_chars ++ separators → PyStr.mem c d = false) ∧
  (∀ p, urlparse E url = inr p →
     PyStr.strip ["/"] (netloc p +:+ path p) = EmptyString →
     sanitize_url_for_directory E url = inr "extracted_page"%string).
Proof.
  split; [congruence|]. unfold sanitize_url_for_directory. split.
  - intros d c Hd Hc. destruct (urlparse E url) as [e|p]; [done|].
    injection Hd as <-.
    set (s := PyStr.strip _ _).
    assert (c ≠ "_") as Hu.
    { intros ->. revert Hc. unfold invalid_chars, separators.
      rewrite !elem_of_app, !elem_of_cons, !elem_of_nil.
      intros [Hc|Hc]; repeat (destruct Hc as [Hc|Hc]; [done|]); done. }
    assert (PyStr.mem c
      (PyStr.re_sub_class separators "_"
         (PyStr.re_sub_class invalid_chars "_" s)) = false) as Hm.
    { apply elem_of_app in Hc as [Hc|Hc].
      - apply mem_re_sub_class_keep; [done|]. by apply mem_re_sub_class_in.
      - by apply mem_re_sub_class_in. }
    destruct (negb _); [|done].
    revert Hc. unfold invalid_chars, separators.
    rewrite !elem_of_app, !elem_of_cons, !elem_of_nil.
    intros [Hc|Hc]; repeat (destruct Hc as [->|Hc]; [done|]); done.
  - intros p Hp Hs. rewrite Hp.
    assert ((if PyStr.truthy (netloc p) then netloc p +:+ path p else path p)
            = netloc p +:+ path p) as ->.
    { by destruct (netloc p). }
    by rewrite Hs.
Qed.

(** ** Rules for runs *)

Section wp_rules.
Context {A B : Type}.
Implicit Types (Q : exn + A → World → Prop) (w : World).

Lemma wp_ret a Q w : Q (inr a) w → wp (ret a) Q w.
Proof. done. Qed.

Lemma wp_raise e Q w : Q (inl e) w → wp (raise e) Q w.
Proof. done. Qed.

Lemma wp_lift (r : exn + A) Q w : Q r w → wp (lift r) Q w.
Proof. by destruct r. Qed.

Lemma wp_bind (m : M B) (k : B → M A) Q w :
  wp m (λ r w', match r with
                | inl e => Q (inl e) w'
                | inr b => wp (k b) Q w'
                end) w →
  wp (bind m k) Q w.
Proof. unfold wp, bind. by destruct (m w) as [[e|b] w']. Qed.

Lemma wp_try_except (m : M A) (h : exn → M A) Q w :
  wp m (λ r w', match r with
                | inl e => wp (h e) Q w'
                | inr a => Q (inr a) w'
                end) w →
  wp (try_except m h) Q w.
Proof. unfold wp, try_except. by destruct (m w) as [[e|a] w']. Qed.

End wp_rules.

Lemma wp_print s (Q : exn + unit → World → Prop) w :
  Q (inr ()) (set_stdout (λ o, o ++ [s]) w) → wp (print s) Q w.
Proof. done. Qed.

Lemma wp_requests_get E url (Q : exn + Response → World → Prop) w :
  Q (http E (requests w) url) (set_requests (λ r, r ++ [url]) w) →
  wp (requests_get E url) Q w.
Proof. done. Qed.

Lemma error_status_spec r :
  error_status r ↔
  ((400 <=? status_code r)%nat && (status_code r <? 500)%nat = true ∨
   (500 <=? status_code r)%nat && (status_code r <? 600)%nat = true).
Proof.
  unfold error_status.
  rewrite !andb_true_iff, !Nat.leb_le, !Nat.ltb_lt. lia.
Qed.

Lemma wp_raise_for_status r (Q : exn + unit → World → Prop) w :
  (error_status r → ∀ e, is_RequestException e = true → Q (inl e) w) →
  (¬ error_status r → Q (inr ()) w) →
  wp (raise_for_status r) Q w.
Proof.
  rewrite error_status_spec. unfold raise_for_status. intros He Hok.
  destruct ((400 <=? _)%nat && _) eqn:H1; [apply He; auto|].
  destruct ((500 <=? _)%nat && _) eqn:H2; [apply He; auto|].
  apply Hok. intros [?|?]; congruence.
Qed.

Lemma wp_os_path_exists p (Q : exn + bool → World → Prop) w :
  Q (inr (bool_decide (p ∈ dirs w ∨ is_Some (files w !! p)))) w →
  wp (os_path_exists p) Q w.
Proof. done. Qed.

Lemma wp_os_makedirs E p (Q : exn + unit → World → Prop) w :
  match makedirs_fault E w p with
  | Some e => Q (inl e) w
  | None =>
      if bool_decide (p ∈ dirs w ∨ is_Some (files w !! p))
      then ∀ e, Q (inl e) w
      else Q (inr ()) (set_dirs (λ d, {[p]} ∪ d) w)
  end →
  wp (os_makedirs E p) Q w.
Proof.
  unfold wp, os_makedirs. destruct (makedirs_fault E w p); [done|].
  destruct (bool_decide _); [intros H; apply H | done].
Qed.

Lemma wp_open_w E p (Q : exn + unit → World → Prop) w :
  match open_fault E w p with
  | Some e => Q (inl e) w
  | None => Q (inr ()) (set_files (λ f, <[p := EmptyString]> f) w)
  end →
  wp (open_w E p) Q w.
Proof. unfold wp, open_w. by destruct (open_fault E w p). Qed.

Lemma wp_write E p s (Q : exn + unit → World → Prop) w :
  match write_fault E w p s with
  | Some e => Q (inl e) w
  | None => Q (inr ()) (set_files (λ f, <[p := s]> f) w)
  end →
  wp (write E p s) Q w.
Proof. unfold wp, write. by destruct (write_fault E w p s). Qed.

Global Arguments wp : simpl never.

(** One step of a run, following the shape of the program. *)
Ltac wp_step :=
  lazymatch goal with
  | |- wp (bind _ _) _ _ => apply wp_bind
  | |- wp (try_except _ _) _ _ => apply wp_try_except
  | |- wp (ret _) _ _ => apply wp_ret
  | |- wp (raise _) _ _ => apply wp_raise
  | |- wp (lift _) _ _ => apply wp_lift
  | |- wp (print _) _ _ => apply wp_print
  | |- wp (requests_get _ _) _ _ => apply wp_requests_get
  | |- wp (raise_for_status _) _ _ => apply wp_raise_for_status; intros
  | |- wp (os_path_exists _) _ _ => apply wp_os_path_exists
  | |- wp (os_makedirs _ _) _ _ => apply wp_os_makedirs
  | |- wp (open_w _ _) _ _ => apply wp_open_w
  | |- wp (write _ _ _) _ _ => apply wp_write
  | |- wp (if ?b then _ else _) _ _ => destruct b eqn:?
  | |- match ?x with _ => _ end => destruct x eqn:?
  | |- if ?x then _ else _ => destruct x eqn:?
  | |- ∀ _ : exn, _ => intro
  end; cbn beta iota zeta.

Ltac wp_run := repeat wp_step.

(** The request was answered, and with a status that is not an error. *)
Ltac no_network_error :=
  match goal with
  | Hnet : (∃ _, _) ∨ (∃ _, _ ∧ _) |- _ =>
      destruct Hnet as [[? ?]|(? & ? & ?)]; [congruence|];
      match goal with
      | H1 : ?t = inr ?r, H2 : ?t = inr ?r' |- _ =>
          assert (r' = r) by congruence; subst; done
      end
  end.

(** Two answers to the same call are the same answer. *)
Ltac same_answers :=
  repeat match goal with
         | H1 : ?t = inr ?a, H2 : ?t = inr ?b |- _ =>
             assert (b = a) by congruence; subst b; clear H2
         end.

Ltac rewrite_decided :=
  repeat match goal with
         | H : bool_decide _ = _ |- _ => rewrite H
         end.

(** ** The fetcher *)

(** The request is issued first and to the URL with its scheme. *)
Lemma extract_html_from_url_requests E url w :
  requests (extract_html_from_url E url w).2 = requests w ++ [with_scheme url].
Proof.
  change (wp (extract_html_from_url E url)
            (λ _ w', requests w' = requests w ++ [with_scheme url]) w).
  unfold extract_html_from_url. wp_run; done.
Qed.

(** C6. A URL that does not begin with http:// or https:// is fetched with
    https:// put in front of it; a URL that begins with one of them is
    fetched as it is. *)
Theorem fetch_url_scheme (E : Env) (url : string) (w : World) :
  ((¬ ∃ rest, url = "http://" +:+ rest) ∧ (¬ ∃ rest, url = "https://" +:+ rest) →
     requests (extract_html_from_url E url w).2
     = requests w ++ ["https://" +:+ url]) ∧
  ((∃ rest, url = "http://" +:+ rest) ∨ (∃ rest, url = "https://" +:+ rest) →
     requests (extract_html_from_url E url w).2 = requests w ++ [url]).
Proof.
  rewrite extract_html_from_url_requests. unfold with_scheme, PyStr.startswith_any.
  rewrite <-2!startswith_spec. simpl.
  destruct (PyStr.startswith url "http://"), (PyStr.startswith url "https://");
    simpl; intuition congruence.
Qed.

Lemma wp_result {A} (m : M A) (P : A → World → Prop) w :
  wp m (λ r w', ∃ a, r = inr a ∧ P a w') w →
  ∃ a w', m w = (inr a, w') ∧ P a w'.
Proof.
  unfold wp. destruct (m w) as [r w']. simpl. intros (a & -> & HP). eauto.
Qed.

(** Every run of the fetcher returns; it returns the result of exactly one
    of two kinds. *)
Lemma extract_html_from_url_spec E url w :
  ∃ x w',
    extract_html_from_url E url w = (inr x, w') ∧
    ((x = no_result ∧ fetch_failure E url w ∧
      ((∃ e, http E (requests w) (with_scheme url) = inl e) ∨
       (∃ r, http E (requests w) (with_scheme url) = inr r ∧ error_status r) →
       files w' = files w ∧ dirs w' = dirs w))
     ∨
     (∃ r d,
        http E (requests w) (with_scheme url) = inr r ∧
        ¬ error_status r ∧
        sanitize_url_for_directory E (with_scheme url) = inr d ∧
        x = (Some (OsPath.join d "index.html"), Some (text r),
             Some (with_scheme url), Some d) ∧
        files w' !! OsPath.join d "index.html" = Some (text r) ∧
        ¬ fetch_failure E url w)).
Proof.
  apply wp_result. unfold extract_html_from_url. wp_run; simpl in *; try done.
  all: eexists; split; [reflexivity|].
  all: rewrite ?negb_true_iff, ?negb_false_iff in *.
  all: try (left; split; [done|]; split;
      [ first
          [ by eapply network_error
          | by eapply http_status_error
          | by eapply dir_name_error
          | eapply makedirs_error; [done| |unfold requested; done];
            by eapply bool_decide_eq_false_1
          | eapply open_error; [done|];
            unfold with_dir, requested; simpl; by rewrite_decided
          | eapply write_error; [done..|];
            unfold opened, with_dir, requested; simpl; by rewrite_decided ]
      | by intros Hnet; split; try done; exfalso; no_network_error ]).
  all: right; eexists _, _; split_and!; try done.
  all: try by rewrite lookup_insert_eq.
  all: intros []; unfold opened, with_dir, requested in *; simpl in *.
  all: same_answers; try congruence.
  all: try by (match goal with
               | H : bool_decide _ = true |- _ => apply bool_decide_eq_true_1 in H
               end).
  all: match goal with
       | H : bool_decide _ = _, H' : context [bool_decide _] |- _ =>
           rewrite H in H'; simpl in H'; congruence
       end.
Qed.

(** C7 (as amended). Every failure of the fetcher (no answer from the
    network, an answer with a status from 400 to 599, a directory that
    cannot be named or created, a file that cannot be opened or written)
    ends in the result whose four components are absent; the fetcher itself always returns, so no exception reaches the
    caller.  That result is given on a failure only. *)
Theorem fetch_failure_no_result (E : Env) (url : string) (w : World) :
  (∃ x w', extract_html_from_url E url w = (inr x, w')) ∧
  (fetch_failure E url w →
     ∃ w', extract_html_from_url E url w = (inr (None, None, None, None), w')) ∧
  (∀ w', extract_html_from_url E url w = (inr (None, None, None, None), w') →
     fetch_failure E url w).
Proof.
  destruct (extract_html_from_url_spec E url w) as (x & w' & Hrun & Hx).
  split; [eauto|]. rewrite Hrun.
  destruct Hx as [(-> & Hf & _)|(r & d & _ & _ & _ & -> & _ & Hnf)].
  - split; [eauto|done].
  - split; [done|]. intros ? [=].
Qed.

(** C9 (as amended). When the request gets no answer, or an answer with
    a status from 400 to 599, the fetcher leaves the file system as it
    was: no directory is created and no file is written. *)
Theorem fetch_error_leaves_files (E : Env) (url : string) (w : World) :
  (∃ e, http E (requests w) (with_scheme url) = inl e) ∨
  (∃ r, http E (requests w) (with_scheme url) = inr r ∧ error_status r) →
  files (extract_html_from_url E url w).2 = files w ∧
  dirs (extract_html_from_url E url w).2 = dirs w.
Proof.
  intros Hnet.
  destruct (extract_html_from_url_spec E url w) as (x & w' & Hrun & Hx).
  rewrite Hrun. simpl.
  destruct Hx as [(_ & _ & Hfs)|(r & d & Hr & Hok & _)]; [auto|].
  exfalso. no_network_error.
Qed.


(** ** The mirror: one link *)

Local Arguments css_filename_of : simpl never.

Lemma insert_keeps (m : gmap string string) p q v :
  is_Some (m !! p) → is_Some (<[q := v]> m !! p).
Proof. rewrite lookup_insert_is_Some. destruct (decide (q = p)); auto. Qed.

Lemma mirror_link_spec E base dir total idx link soup dl w :
  let run := mirror_link E base dir total (idx, link) (soup, dl) w in
  match reference soup link with
  | None => run = (inr (soup, dl), w)
  | Some href =>
      match urljoin E base href with
      | inl e => run = (inl e, w)
      | inr u =>
          ∃ st' w',
            run = (inr st', w') ∧
            requests w' = requests w ++ [u] ∧
            dirs w' = dirs w ∧
            (∀ p, is_Some (files w !! p) → is_Some (files w' !! p)) ∧
            ((st' = (soup, dl) ∧ download_failure E dir idx (requests w) u) ∨
             (∃ r name,
                download_success E idx (requests w) u name r ∧
                st' = (tag_set soup link "href" name, dl ++ [name]) ∧
                files w' !! OsPath.join dir name = Some (text r)))
      end
  end.
Proof.
  unfold reference, mirror_link. cbn zeta.
  destruct (tag_get soup link "href") as [href|]; [|done].
  destruct (PyStr.truthy href); simpl; [|done].
  unfold bind at 1. unfold lift at 1.
  destruct (urljoin E base href) as [e|u]; [done|]. cbn beta iota.
  unfold ret at 1. cbn beta iota.
  apply wp_result. wp_run; simpl in *; try done.
  all: eexists; split; [reflexivity|]; simpl; split_and!; try done.
  all: try by (intros p Hp; repeat apply insert_keeps).
  all: try (left; split; [done|];
            first [ by eapply css_request_error
                  | by eapply css_status_error
                  | by eapply css_filename_error
                  | by eapply css_open_error
                  | by eapply css_write_error ]).
  right. eexists _, _. split_and!; [done..|]. by rewrite lookup_insert_eq.
Qed.

(** ** The parsed document *)

Lemma tag_get_set_eq soup l key v :
  is_Some (tag_get soup l key) → tag_get (tag_set soup l key v) l key = Some v.
Proof.
  unfold tag_get, tag_set. rewrite list_lookup_alter_eq.
  destruct (soup !! l) as [[s|t]|]; simpl; try by intros [? ?].
  intros _. by rewrite lookup_insert_eq.
Qed.

Lemma tag_set_lookup_ne soup l j key v :
  l ≠ j → tag_set soup l key v !! j = soup !! j.
Proof. intros. unfold tag_set. by rewrite list_lookup_alter_ne. Qed.

Lemma tag_get_frame (soup soup' : Soup) l key :
  soup' !! l = soup !! l → tag_get soup' l key = tag_get soup l key.
Proof. unfold tag_get. by intros ->. Qed.

Lemma reference_is_Some soup l href :
  reference soup l = Some href → tag_get soup l "href" = Some href.
Proof.
  unfold reference. destruct (tag_get soup l "href") as [h|]; [|done].
  destruct (PyStr.truthy h); by intros [= ->].
Qed.

Lemma css_url_of_frame E base (soup soup' : Soup) l :
  soup' !! l = soup !! l → css_url_of E base soup' l = css_url_of E base soup l.
Proof.
  intros H. unfold css_url_of, reference. by rewrite (tag_get_frame soup soup').
Qed.

Lemma omap_cons_eq {A B} (f : A → option B) x (l : list A) :
  omap f (x :: l) = match f x with Some y => y :: omap f l | None => omap f l end.
Proof. done. Qed.

Lemma omap_css_url_of_frame E base (soup soup' : Soup) (ls : list nat) :
  (∀ l, l ∈ ls → soup' !! l = soup !! l) →
  omap (css_url_of E base soup') ls = omap (css_url_of E base soup) ls.
Proof.
  induction ls as [|l ls IH]; intros H; [done|]. rewrite !omap_cons_eq.
  rewrite (css_url_of_frame E base soup soup' l) by (apply H; left).
  rewrite IH; [done|]. intros l' Hl'. apply H. by right.
Qed.

Lemma link_outcome_frame E base dir (soup0 soup soup' : Soup) dl' w' hist idx l :
  soup0 !! l = soup !! l →
  link_outcome E base dir soup0 soup' dl' w' hist idx l →
  link_outcome E base dir soup soup' dl' w' hist idx l.
Proof.
  intros H. unfold link_outcome.
  by rewrite (css_url_of_frame E base soup soup0 l), (tag_get_frame soup soup0 l).
Qed.

(** ** The mirror: the loop *)

Section mirror_loop.
Variables (E : Env) (base dir : string) (total : nat).

(** One more link in front: the facts about the rest of the loop, put
    together with what the first link did. *)
Lemma loop_post_cons l ls k soup dl w soup1 dl1 w1 res :
  l ∉ ls →
  requests w1 = requests w ++ option_list (css_url_of E base soup l) →
  dirs w1 = dirs w →
  (∀ p, is_Some (files w !! p) → is_Some (files w1 !! p)) →
  (∀ j, j ≠ l → soup1 !! j = soup !! j) →
  length soup1 = length soup →
  (is_Some (reference soup l) → is_Some (css_url_of E base soup l)) →
  (∀ name, name ∈ dl → name ∈ dl1) →
  (∀ soup' dl' w',
     soup' !! l = soup1 !! l →
     (∀ name, name ∈ dl1 → name ∈ dl') →
     (∀ p, is_Some (files w1 !! p) → is_Some (files w' !! p)) →
     link_outcome E base dir soup soup' dl' w' (requests w) k l) →
  (∀ name, name ∈ dl1 → name ∈ dl ∨
     ∃ u, css_url_of E base soup l = Some u ∧
          css_filename_of E k u = inr name ∧
          tag_get soup1 l "href" = Some name ∧
          is_Some (files w1 !! OsPath.join dir name)) →
  loop_post E base dir ls (S k) soup1 dl1 w1 res →
  loop_post E base dir (l :: ls) k soup dl w res.
Proof.
  intros Hl Hreq Hdirs Hfiles Hframe Hlen Hres Hdl Hhead Hnames.
  assert (∀ l', l' ∈ ls → soup1 !! l' = soup !! l') as Hrest.
  { intros l' Hl'. apply Hframe. by intros ->. }
  assert (∀ i, requests w1 ++ omap (css_url_of E base soup1) (take i ls)
               = requests w ++ omap (css_url_of E base soup) (take (S i) (l :: ls)))
    as Hhist.
  { intros i. rewrite firstn_cons, omap_cons_eq, Hreq, <-(assoc_L (++)).
    f_equal. rewrite (omap_css_url_of_frame E base soup soup1).
    - by destruct (css_url_of E base soup l).
    - intros l' Hl'. apply Hrest. by apply (subseteq_take i ls). }
  unfold loop_post. destruct res as [[e|[soup' dl']] w'].
  { intros (i & l' & href & Hl' & Href & Hjoin & Hreq').
    exists (S i), l', href. split_and!; [done| |done|by rewrite <-Hhist].
    revert Href. unfold reference.
    rewrite (tag_get_frame soup soup1 l'); [done|].
    apply Hrest. by eapply list_elem_of_lookup_2. }
  intros (Hreq' & Hdirs' & Hfiles' & Hframe' & Hlen' & Hres' & Hdl' & Hout
          & Hnames').
  assert (soup' !! l = soup1 !! l) as Hsame by auto.
  split_and!.
  - rewrite Hreq', Hreq, omap_cons_eq, <-(assoc_L (++)). f_equal.
    rewrite (omap_css_url_of_frame E base soup soup1) by done.
    by destruct (css_url_of E base soup l).
  - congruence.
  - auto.
  - intros j Hj. apply not_elem_of_cons in Hj as [? ?].
    rewrite Hframe' by done. auto.
  - congruence.
  - intros l' [->|Hl']%elem_of_cons; [done|].
    rewrite <-(css_url_of_frame E base soup soup1 l') by auto.
    unfold reference. rewrite <-(tag_get_frame soup soup1 l') by auto.
    by apply Hres'.
  - auto.
  - intros [|i] l' Hi.
    + injection Hi as <-. rewrite Nat.add_0_r. simpl. rewrite app_nil_r.
      by apply Hhead.
    + simpl in Hi. rewrite <-Hhist, Nat.add_succ_r.
      apply (link_outcome_frame E base dir soup1).
      * apply Hrest. by eapply list_elem_of_lookup_2.
      * by apply Hout.
  - intros name Hname. destruct (Hnames' name Hname) as [H1|H1].
    + destruct (Hnames name H1) as [?|(u & Hu & Hfn & Hget & Hfile)]; [by left|].
      right. exists 0, l, u. rewrite Nat.add_0_r.
      split_and!; [done..| |by auto].
      by rewrite (tag_get_frame soup1 soup' l).
    + right. destruct H1 as (i & l' & u & Hi & Hu & Hfn & Hget & Hfile).
      exists (S i), l', u. rewrite Nat.add_succ_r.
      split_and!; [done| |done..].
      rewrite <-Hu. symmetry. apply css_url_of_frame, Hrest.
      by eapply list_elem_of_lookup_2.
Qed.

Lemma mirror_loop_spec (links : list nat) : ∀ k soup dl w,
  NoDup links →
  loop_post E base dir links k soup dl w
    (for_each (enumerate k links) (mirror_link E base dir total) (soup, dl) w).
Proof.
  induction links as [|l ls IH]; intros k soup dl w Hnd.
  { unfold loop_post. cbn [enumerate for_each]. unfold ret.
    rewrite app_nil_r. split_and!; auto.
    - by intros l ?%elem_of_nil.
    - intros i l. by rewrite lookup_nil. }
  apply NoDup_cons in Hnd as [Hl Hnd].
  cbn [enumerate for_each]. unfold bind at 1.
  pose proof (mirror_link_spec E base dir total k l soup dl w) as Hstep.
  cbn zeta in Hstep.
  assert (∀ soup', soup' !! l = soup !! l →
            tag_get soup' l "href" = tag_get soup l "href") as Hkeep.
  { intros. by apply tag_get_frame. }
  destruct (reference soup l) as [href|] eqn:Href.
  - destruct (urljoin E base href) as [e|u] eqn:Hjoin.
    + rewrite Hstep. exists 0, l, href. simpl. by rewrite app_nil_r.
    + destruct Hstep as (st' & w1 & -> & Hreq & Hdirs & Hfiles & Hst).
      assert (css_url_of E base soup l = Some u) as Hu.
      { unfold css_url_of. by rewrite Href, Hjoin. }
      destruct Hst as [[-> Hfail]|(r & name & Hok & -> & Hfile)].
      * eapply loop_post_cons;
          [done| |done|done|done|done| |done| | |by apply IH].
        -- by rewrite Hu.
        -- by rewrite Hu.
        -- intros soup' dl' w' Hs _ _. unfold link_outcome. rewrite Hu.
           left. auto.
        -- auto.
      * eapply loop_post_cons; [done| |done|done| | | | | | |by apply IH].
        -- by rewrite Hu.
        -- intros j Hj. by apply tag_set_lookup_ne.
        -- unfold tag_set. apply length_alter.
        -- by rewrite Hu.
        -- intros n Hn. apply elem_of_app. by left.
        -- intros soup' dl' w' Hs Hdl' Hfiles'. unfold link_outcome.
           rewrite Hu. right. exists r, name. split_and!; [done| | |].
           ++ rewrite (tag_get_frame _ soup' l "href" Hs).
              apply tag_get_set_eq. erewrite reference_is_Some; eauto.
           ++ apply Hdl', elem_of_app. right. by left.
           ++ apply Hfiles'. by rewrite Hfile.
        -- intros n Hn. apply elem_of_app in Hn as [?|Hn]; [by left|].
           apply list_elem_of_singleton in Hn as ->. right. exists u.
           destruct Hok as (_ & _ & Hfn). split_and!; [done..| |].
           ++ apply tag_get_set_eq. erewrite reference_is_Some; eauto.
           ++ by rewrite Hfile.
  - rewrite Hstep.
    assert (css_url_of E base soup l = None) as Hu.
    { unfold css_url_of. by rewrite Href. }
    eapply loop_post_cons;
      [done| |done|done|done|done| |done| | |by apply IH].
    + rewrite Hu. simpl. by rewrite app_nil_r.
    + rewrite Href. by intros ?%is_Some_None.
    + intros soup' dl' w' Hs _ _. unfold link_outcome. rewrite Hu. auto.
    + auto.
Qed.
End mirror_loop.

(** ** The mirror: the whole pass *)

Lemma find_all_from_ge i soup l : l ∈ find_all_from i soup → i ≤ l.
Proof.
  revert i. induction soup as [|n soup IH]; intros i; simpl.
  - by intros ?%elem_of_nil.
  - destruct (is_stylesheet_link n).
    + intros [->|H%IH]%elem_of_cons; lia.
    + intros H%IH. lia.
Qed.

Lemma find_all_from_NoDup i soup : NoDup (find_all_from i soup).
Proof.
  revert i. induction soup as [|n soup IH]; intros i; simpl.
  - constructor.
  - destruct (is_stylesheet_link n); [|done].
    apply NoDup_cons. split; [|done]. intros H%find_all_from_ge. lia.
Qed.

Lemma mirror_links_spec E base dir soup w :
  loop_post E base dir (find_all_stylesheet_links soup) 1 soup [] w
    (mirror_links E base dir soup (find_all_stylesheet_links soup) w).
Proof. apply mirror_loop_spec, find_all_from_NoDup. Qed.

(** The pass after the parse, by the result of the loop and of the three
    steps that rewrite [index.html]. *)
Lemma extract_linked_styles_run E html base dir w soup :
  BeautifulSoup E html = inr soup →
  find_all_stylesheet_links soup ≠ [] →
  let links := find_all_stylesheet_links soup in
  let index := OsPath.join dir "index.html" in
  ∃ b w',
    extract_linked_styles E html base dir w = (inr b, w') ∧
    match mirror_links E base dir soup links (announced (length links) w) with
    | (inl e, w1) => b = false ∧ requests w' = requests w1 ∧ files w' = files w1
    | (inr (soup', dl'), w1) =>
        requests w' = requests w1 ∧
        match open_fault E w1 index with
        | Some _ => b = false ∧ files w' = files w1
        | None =>
            match soup_str E soup' with
            | inl _ => b = false ∧ files w' = <[index := EmptyString]> (files w1)
            | inr out =>
                match write_fault E (opened index w1) index out with
                | Some _ =>
                    b = false ∧ files w' = <[index := EmptyString]> (files w1)
                | None =>
                    b = true ∧
                    files w' = <[index := out]> (<[index := EmptyString]> (files w1))
                end
            end
        end
    end.
Proof.
  intros Hparse Hlinks links index. apply wp_result.
  unfold extract_linked_styles. rewrite Hparse.
  apply wp_try_except, wp_bind, wp_lift. cbn beta iota zeta.
  fold links. destruct links as [|l ls] eqn:Hl; [done|]. rewrite <-Hl.
  apply wp_bind, wp_print. cbn beta iota. apply wp_bind.
  unfold wp at 1. fold (announced (length links) w).
  destruct (mirror_links _ _ _ _ _ _) as [[e|[soup' dl']] w1];
    cbn [fst snd]; cbn beta iota.
  { wp_run. eexists. by split. }
  fold index. unfold opened. wp_run; simpl; eexists; by split.
Qed.

Lemma no_links_run E html base dir w soup :
  BeautifulSoup E html = inr soup →
  find_all_stylesheet_links soup = [] →
  ∃ w', extract_linked_styles E html base dir w = (inr true, w') ∧
        requests w' = requests w ∧ files w' = files w ∧ dirs w' = dirs w ∧
        stdout w' = stdout w ++ ["No linked stylesheets found."%string].
Proof.
  intros Hparse Hnone.
  destruct (wp_result (extract_linked_styles E html base dir)
              (λ b w', b = true ∧ requests w' = requests w ∧
                       files w' = files w ∧ dirs w' = dirs w ∧
                       stdout w' = stdout w ++ ["No linked stylesheets found."%string])
              w) as (b & w' & Hrun & -> & Hw'); [|by eauto].
  unfold extract_linked_styles. rewrite Hparse.
  apply wp_try_except, wp_bind, wp_lift. cbn beta iota zeta. rewrite Hnone.
  wp_run. by eexists.
Qed.

(** C5. On a document without stylesheet links the mirror returns true,
    issues no request and writes no file: the saved page, and with it
    every reference in it, stays as it was. *)
Theorem no_stylesheet_links_is_noop (E : Env) (html base dir : string)
    (w : World) (soup : Soup) :
  BeautifulSoup E html = inr soup →
  find_all_stylesheet_links soup = [] →
  ∃ w', extract_linked_styles E html base dir w = (inr true, w') ∧
        requests w' = requests w ∧ files w' = files w ∧ dirs w' = dirs w ∧
        stdout w' = stdout w ++ ["No linked stylesheets found."%string].
Proof. apply no_links_run. Qed.

(** C10. A stylesheet link whose reference is the empty string is passed
    over like a link without a reference: the loop body returns with the
    document, the downloaded names and the world untouched, so no request
    is issued, no file is written and the reference stays. *)
Theorem empty_reference_is_skipped (E : Env) (base dir : string)
    (total idx link : nat) (soup : Soup) (dl : list string) (w : World) :
  tag_get soup link "href" = Some EmptyString →
  mirror_link E base dir total (idx, link) (soup, dl) w = (inr (soup, dl), w) ∧
  ∀ soup0, tag_get soup0 link "href" = None →
    mirror_link E base dir total (idx, link) (soup0, dl) w = (inr (soup0, dl), w).
Proof.
  intros Hempty. unfold mirror_link. rewrite Hempty. split; [done|].
  by intros soup0 ->.
Qed.

(** C4. Every name in the list of downloaded files belongs to a link of
    the document: it is the last segment of the path of the stylesheet's
    resolved URL when that segment is not empty and ends in .css, and
    style_n.css otherwise, n being the position of the link, counted from
    1, among all stylesheet links found (those passed over included); the
    link refers to that name afterwards and a file of that name is in the
    directory. *)
Theorem css_filename_rule (E : Env) (base dir : string) (soup soup' : Soup)
    (dl' : list string) (w w' : World) :
  let links := find_all_stylesheet_links soup in
  mirror_links E base dir soup links w = (inr (soup', dl'), w') →
  ∀ name, name ∈ dl' →
    ∃ i link css_url parsed,
      links !! i = Some link ∧
      css_url_of E base soup link = Some css_url ∧
      urlparse E css_url = inr parsed ∧
      name = (if PyStr.truthy (OsPath.basename (path parsed))
                 && PyStr.endswith (OsPath.basename (path parsed)) ".css"
              then OsPath.basename (path parsed)
              else "style_" +:+ pretty (S i) +:+ ".css") ∧
      tag_get soup' link "href" = Some name ∧
      is_Some (files w' !! OsPath.join dir name).
Proof.
  intros links Hrun name Hname.
  pose proof (mirror_links_spec E base dir soup w) as Hpost.
  fold links in Hpost. rewrite Hrun in Hpost.
  destruct Hpost as (_ & _ & _ & _ & _ & _ & _ & _ & Hnames).
  destruct (Hnames name Hname) as [[]%elem_of_nil|H].
  destruct H as (i & l & u & Hi & Hu & Hfn & Hget & Hfile).
  unfold css_filename_of in Hfn.
  destruct (urlparse E u) as [e|parsed] eqn:Hparsed; [done|].
  exists i, l, u, parsed. split_and!; try done.
  injection Hfn as <-. by destruct (PyStr.truthy _), (PyStr.endswith _ _).
Qed.

Lemma css_url_of_Some E base soup l u :
  css_url_of E base soup l = Some u →
  ∃ href, tag_get soup l "href" = Some href ∧ PyStr.truthy href = true ∧
          urljoin E base href = inr u.
Proof.
  unfold css_url_of, reference.
  destruct (tag_get soup l "href") as [href|]; [|done].
  destruct (PyStr.truthy href) eqn:Ht; [|done].
  destruct (urljoin E base href) as [e|u'] eqn:Hj; [done|].
  intros [= ->]. eauto.
Qed.

(** The requests of a pass, exactly: the resolved references of the
    stylesheet links, in document order, up to the first reference that
    does not resolve. *)
Lemma extract_linked_styles_requests_exact E html base dir w soup :
  BeautifulSoup E html = inr soup →
  ∃ n,
    requests (extract_linked_styles E html base dir w).2
    = requests w ++ omap (css_url_of E base soup)
                      (take n (find_all_stylesheet_links soup)) ∧
    (n = length (find_all_stylesheet_links soup) ∨
     ∃ l href e, find_all_stylesheet_links soup !! n = Some l ∧
                 reference soup l = Some href ∧
                 urljoin E base href = inl e).
Proof.
  intros Hparse.
  destruct (find_all_stylesheet_links soup) as [|l0 ls0] eqn:Hlinks.
  { destruct (no_links_run E html base dir w soup Hparse Hlinks)
      as (w' & -> & Hreq & _).
    exists 0. split; [by rewrite app_nil_r|by left]. }
  destruct (extract_linked_styles_run E html base dir w soup Hparse)
    as (b & w' & -> & Hrun); [by rewrite Hlinks|].
  pose proof (mirror_links_spec E base dir soup
                (announced (length (find_all_stylesheet_links soup)) w)) as Hpost.
  rewrite Hlinks in Hrun, Hpost.
  destruct (mirror_links _ _ _ _ _ _) as [[e|[soup' dl']] w1]; simpl in *.
  - destruct Hpost as (i & l & href & Hi & Href & He & Hreq).
    destruct Hrun as (_ & -> & _). exists i. split; [exact Hreq|].
    right. by exists l, href, e.
  - destruct Hpost as (Hreq & _). destruct Hrun as (-> & _).
    exists (length (l0 :: ls0)). rewrite firstn_all. split; [exact Hreq|by left].
Qed.

(** C1 (as amended). The base URL a successful fetch returns is the URL
    the GET request was issued to, that is the given URL with its scheme,
    and the HTML returned with it is the body of the answer to that
    request, wherever the answer came from in the end.  The mirror
    resolves against this base URL: the requests of a pass are
    [urljoin] of the base URL and the reference, for every stylesheet
    link with a reference that is not empty, in document order, up to the
    first reference that does not resolve. *)
Theorem base_url_is_requested_url (E : Env) (url : string) (w w1 : World)
    (p html b d : string) :
  extract_html_from_url E url w = (inr (Some p, Some html, Some b, Some d), w1) →
  b = with_scheme url ∧
  requests w1 = requests w ++ [b] ∧
  (∃ r, http E (requests w) b = inr r ∧ text r = html) ∧
  ∀ w2 soup,
    BeautifulSoup E html = inr soup →
    (∀ l u, css_url_of E b soup l = Some u ↔
            ∃ href, tag_get soup l "href" = Some href ∧
                    PyStr.truthy href = true ∧ urljoin E b href = inr u) ∧
    ∃ n,
      requests (extract_linked_styles E html b d w2).2
      = requests w2 ++ omap (css_url_of E b soup)
                         (take n (find_all_stylesheet_links soup)) ∧
      (n = length (find_all_stylesheet_links soup) ∨
       ∃ l href e, find_all_stylesheet_links soup !! n = Some l ∧
                   reference soup l = Some href ∧
                   urljoin E b href = inl e).
Proof.
  intros Hrun.
  pose proof (extract_html_from_url_requests E url w) as Hreq.
  destruct (extract_html_from_url_spec E url w) as (x & w' & Hrun' & Hx).
  rewrite Hrun in Hrun'. injection Hrun' as <- <-.
  rewrite Hrun in Hreq. simpl in Hreq.
  destruct Hx as [([=] & _)|(r & d' & Hr & _ & _ & [= -> -> -> ->] & _)].
  split_and!; [done|done|by eauto|].
  intros w2 soup Hparse. split.
  - intros l u. split; [apply css_url_of_Some|].
    intros (href & Hget & Ht & Hj). unfold css_url_of, reference.
    by rewrite Hget, Ht, Hj.
  - by apply extract_linked_styles_requests_exact.
Qed.

(** ** The mirror: the loop, link by link *)





Section mirror_loop_at.
Variables (E : Env) (base dir : string) (total : nat).

End mirror_loop_at.



(** ** The driver *)

(** C8. When the line read at the first prompt is empty once the blanks at
    both ends are stripped, [main] prints the error and returns: the
    fetcher is not entered (its first message is not printed), no request
    is issued, the file system is untouched and the second prompt is not
    shown. *)
Theorem empty_url_aborts (E : Env) (w : World) (line : string) (rest : list string) :
  stdin w = line :: rest →
  PyStr.strip_ws line = EmptyString →
  ∃ w', main E w = (inr (), w') ∧
        requests w' = requests w ∧ files w' = files w ∧ dirs w' = dirs w ∧
        stdin w' = rest ∧
        stdout w' = stdout w ++
          ["HTML Extractor Tool"; str_times 50 "=";
           "Enter the URL to extract HTML from: ";
           "Error: URL cannot be empty."]%string.
Proof.
  intros Hin Hstrip.
  destruct (wp_result (main E)
              (λ _ w', requests w' = requests w ∧ files w' = files w ∧
                       dirs w' = dirs w ∧ stdin w' = rest ∧
                       stdout w' = stdout w ++
                         ["HTML Extractor Tool"; str_times 50 "=";
                          "Enter the URL to extract HTML from: ";
                          "Error: URL cannot be empty."]%string) w)
    as ([] & w' & Hrun & Hw'); [|by eauto].
  unfold main. do 2 (apply wp_bind, wp_print; cbn beta iota).
  apply wp_bind. unfold wp at 1, input. simpl. rewrite Hin. simpl.
  rewrite Hstrip. simpl. apply wp_print. eexists. split; [done|]. simpl.
  split_and!; try done. by rewrite <-!(assoc_L (++)).
Qed.

(** * Concrete runs *)

(** The end-to-end scenario: [example.com/page] with one stylesheet link
    to [/css/main.css], and [y] at the second prompt. *)
Example end_to_end_scenario :
  main Demo.env (Demo.world ["example.com/page"; "y"]%string)
  = (inr (),
     {| files := {[ "example.com_page/index.html"%string :=
                      Demo.render [Demo.stylesheet "main.css";
                                   NavigableString "Hello"];
                    "example.com_page/main.css"%string := "body{}"%string ]};
        dirs := {[ "example.com_page"%string ]};
        requests := ["https://example.com/page";
                     "https://example.com/css/main.css"]%string;
        stdout := stdout (main Demo.env
                            (Demo.world ["example.com/page"; "y"]%string)).2;
        stdin := [] |}).
Proof. vm_compute; reflexivity. Qed.

(** Blanks beyond ASCII are stripped and split on like the others, and a
    character whose encoding ends in the byte of a blank is left whole. *)
Example strip_ws_unicode :
  PyStr.strip_ws Demo.blank_line = EmptyString ∧
  PyStr.strip_ws (Demo.blank_line +:+ "Yes" +:+ Demo.blank_line) = "Yes"%string ∧
  PyStr.strip_ws (String "195" (String "160" EmptyString))
  = String "195" (String "160" EmptyString) ∧
  split_ws ("alternate" +:+ Demo.blank_line +:+ "stylesheet")
  = ["alternate"; "stylesheet"]%string.
Proof. split_and!; vm_compute; reflexivity. Qed.

Lemma base_url_is_requested_url_witness :
  "https://example.com/old"%string = with_scheme "example.com/old" ∧
  requests Demo.moved_fetch.2
  = requests (Demo.world []) ++ ["https://example.com/old"%string] ∧
  ∃ n,
    requests Demo.moved_run.2
    = requests Demo.moved_fetch.2
      ++ omap (css_url_of Demo.env "https://example.com/old" Demo.moved_soup)
           (take n (find_all_stylesheet_links Demo.moved_soup)) ∧
    (n = length (find_all_stylesheet_links Demo.moved_soup) ∨
     ∃ l href e, find_all_stylesheet_links Demo.moved_soup !! n = Some l ∧
                 reference Demo.moved_soup l = Some href ∧
                 urljoin Demo.env "https://example.com/old" href = inl e).
Proof.
  destruct (base_url_is_requested_url Demo.env "example.com/old" (Demo.world [])
              Demo.moved_fetch.2
              "example.com_old/index.html" (Demo.render Demo.moved_soup)
              "https://example.com/old" "example.com_old")
    as (H1 & H2 & _ & H3); [vm_compute; reflexivity|].
  split; [exact H1|]. split; [exact H2|].
  refine (proj2 (H3 Demo.moved_fetch.2 Demo.moved_soup _)).
  vm_compute; reflexivity.
Defined.

(** C1 as stated does not hold.  The request for [/old] is answered from
    [/new/page] after a redirect, and the base URL the fetch returns is
    the URL that was asked for, not the one the page came from.  The page
    refers to its stylesheet as [style.css]; it is served next to
    [/new/page], but the mirror asks for it next to [/old], where there
    is none, and nothing is saved. *)
Lemma base_url_ignores_redirect :
  http Demo.env [] "https://example.com/old" = inr Demo.moved_answer ∧
  final_url Demo.moved_answer = "https://example.com/new/page"%string ∧
  Demo.moved_fetch.1
  = inr (Some "example.com_old/index.html"%string,
         Some (text Demo.moved_answer),
         Some "https://example.com/old"%string,
         Some "example.com_old"%string) ∧
  urljoin Demo.env (final_url Demo.moved_answer) "style.css"
  = inr "https://example.com/new/style.css"%string ∧
  http Demo.env (requests Demo.moved_fetch.2) "https://example.com/new/style.css"
  = Demo.ok "https://example.com/new/style.css" "new{}" ∧
  requests Demo.moved_run.2
  = ["https://example.com/old"; "https://example.com/style.css"]%string ∧
  files Demo.moved_run.2 !! "example.com_old/style.css"%string = None.
Proof. split_and!; vm_compute; reflexivity. Qed.

Lemma sanitize_url_for_directory_safe_witness :
  PyStr.mem ":" "example.com_a_b_c" = false ∧
  sanitize_url_for_directory Demo.env "https:///" = inr "extracted_page"%string.
Proof.
  split.
  - apply (proj1 (proj2 (sanitize_url_for_directory_safe Demo.env
                           "https://example.com/a:b/c?x"))).
    + vm_compute; reflexivity.
    + apply elem_of_app. left. do 2 apply list_elem_of_further.
      apply list_elem_of_here.
  - apply (proj2 (proj2 (sanitize_url_for_directory_safe Demo.env "https:///"))
             {| scheme := "https"; netloc := EmptyString; path := "/";
                params := EmptyString; query := EmptyString;
                fragment := EmptyString |}).
    + vm_compute; reflexivity.
    + vm_compute; reflexivity.
Defined.

Lemma fetch_url_scheme_witness :
  requests (extract_html_from_url Demo.env "example.com/page" (Demo.world [])).2
  = requests (Demo.world []) ++ ["https://" +:+ "example.com/page"] ∧
  requests (extract_html_from_url Demo.env "http://example.com/page" (Demo.world [])).2
  = requests (Demo.world []) ++ ["http://example.com/page"%string].
Proof.
  split.
  - apply (proj1 (fetch_url_scheme Demo.env "example.com/page" (Demo.world []))).
    split; intros [rest H]; vm_compute in H; discriminate H.
  - apply (proj2 (fetch_url_scheme Demo.env "http://example.com/page" (Demo.world []))).
    left. exists "example.com/page"%string. reflexivity.
Defined.

Lemma fetch_failure_no_result_witness :
  ∃ w', extract_html_from_url Demo.read_only_env "example.com/page" (Demo.world [])
        = (inr (None, None, None, None), w').
Proof.
  apply (proj1 (proj2 (fetch_failure_no_result Demo.read_only_env
                         "example.com/page" (Demo.world [])))).
  apply (open_error _ _ _ "example.com_page" (Exn OSError "Permission denied")).
  - vm_compute; reflexivity.
  - reflexivity.
Defined.

(** C7 as stated does not hold.  The answer 304 is not a success, yet
    nothing is raised for it: the fetch returns the four components, not
    the result without components. *)
Lemma fetch_accepts_status_304 :
  http Demo.env [] "https://example.com/cached" = inr Demo.cached_answer ∧
  status_code Demo.cached_answer = 304 ∧
  ¬ (200 ≤ status_code Demo.cached_answer < 300) ∧
  Demo.cached_fetch.1
  = inr (Some "example.com_cached/index.html"%string,
         Some "unchanged"%string,
         Some "https://example.com/cached"%string,
         Some "example.com_cached"%string) ∧
  Demo.cached_fetch.1 ≠ inr no_result.
Proof.
  split_and!; [vm_compute; reflexivity| reflexivity | simpl; lia
              | vm_compute; reflexivity | vm_compute; discriminate].
Qed.

Lemma fetch_error_leaves_files_witness :
  files (extract_html_from_url Demo.env "example.com/missing.css" (Demo.world [])).2
  = files (Demo.world []) ∧
  dirs (extract_html_from_url Demo.env "example.com/missing.css" (Demo.world [])).2
  = dirs (Demo.world []).
Proof.
  apply fetch_error_leaves_files. right.
  exists Demo.missing_answer.
  split; [vm_compute; reflexivity|]. unfold error_status. simpl. lia.
Defined.

(** C9 as stated does not hold.  After the answer 304, which is not a
    success, the directory has been created and index.html written, on a
    disk that was empty. *)
Lemma fetch_writes_at_status_304 :
  http Demo.env [] "https://example.com/cached" = inr Demo.cached_answer ∧
  status_code Demo.cached_answer = 304 ∧
  ¬ (200 ≤ status_code Demo.cached_answer < 300) ∧
  files (Demo.world []) = ∅ ∧
  dirs (Demo.world []) = ∅ ∧
  dirs Demo.cached_fetch.2 = {[ "example.com_cached"%string ]} ∧
  files Demo.cached_fetch.2
  = {[ "example.com_cached/index.html"%string := "unchanged"%string ]}.
Proof.
  split_and!; first [simpl; lia | vm_compute; reflexivity].
Qed.

Lemma no_stylesheet_links_is_noop_witness :
  ∃ w', extract_linked_styles Demo.env (Demo.render Demo.plain_soup)
          "https://example.com/plain" "example.com_plain"
          (Demo.fetched_world "example.com/plain") = (inr true, w') ∧
        requests w' = requests (Demo.fetched_world "example.com/plain") ∧
        files w' = files (Demo.fetched_world "example.com/plain") ∧
        dirs w' = dirs (Demo.fetched_world "example.com/plain") ∧
        stdout w' = stdout (Demo.fetched_world "example.com/plain")
                    ++ ["No linked stylesheets found."%string].
Proof.
  apply (no_stylesheet_links_is_noop Demo.env _ _ _ _ Demo.plain_soup).
  - vm_compute; reflexivity.
  - vm_compute; reflexivity.
Defined.

Lemma empty_reference_is_skipped_witness :
  mirror_link Demo.env "https://example.com/mixed" "example.com_mixed" 5 (2, 1)
    (Demo.mixed_soup, []) (Demo.fetched_world "example.com/mixed")
  = (inr (Demo.mixed_soup, []), Demo.fetched_world "example.com/mixed").
Proof.
  apply empty_reference_is_skipped. vm_compute; reflexivity.
Defined.

Lemma css_filename_rule_witness :
  ∃ i link css_url parsed,
    find_all_stylesheet_links Demo.mixed_soup !! i = Some link ∧
    css_url_of Demo.env "https://example.com/mixed" Demo.mixed_soup link
    = Some css_url ∧
    urlparse Demo.env css_url = inr parsed ∧
    "style_5.css"%string
    = (if PyStr.truthy (OsPath.basename (path parsed))
          && PyStr.endswith (OsPath.basename (path parsed)) ".css"
       then OsPath.basename (path parsed)
       else "style_" +:+ pretty (S i) +:+ ".css") ∧
    tag_get Demo.mixed_loop_soup link "href" = Some "style_5.css"%string ∧
    is_Some (files Demo.mixed_loop.2
               !! OsPath.join "example.com_mixed" "style_5.css").
Proof.
  apply (css_filename_rule Demo.env "https://example.com/mixed"
           "example.com_mixed" Demo.mixed_soup Demo.mixed_loop_soup
           Demo.mixed_loop_names (Demo.fetched_world "example.com/mixed")
           Demo.mixed_loop.2).
  - vm_compute; reflexivity.
  - vm_compute. apply list_elem_of_further, list_elem_of_here.
Defined.

Lemma empty_url_aborts_witness :
  ∃ w', main Demo.env (Demo.world [Demo.blank_line; "y"%string]) = (inr (), w') ∧
        requests w' = [] ∧ files w' = ∅ ∧ dirs w' = ∅ ∧
        stdin w' = ["y"%string] ∧
        stdout w' = [] ++
          ["HTML Extractor Tool"; str_times 50 "=";
           "Enter the URL to extract HTML from: ";
           "Error: URL cannot be empty."]%string.
Proof.
  apply (empty_url_aborts Demo.env (Demo.world [Demo.blank_line; "y"%string])
           Demo.blank_line).
  - reflexivity.
  - vm_compute; reflexivity.
Defined.



(** * Further properties *)

(** ** The fetcher and the file system *)

Lemma wp_consequence {A} (m : M A) (Q Q' : exn + A → World → Prop) w :
  wp m Q w → (∀ r w', Q r w' → Q' r w') → wp m Q' w.
Proof. unfold wp. auto. Qed.

(** What a fetch does to the input, the directories and the files. *)
Lemma extract_html_from_url_effects E url w :
  ∃ x w',
    extract_html_from_url E url w = (inr x, w') ∧
    stdin w' = stdin w ∧
    match sanitize_url_for_directory E (with_scheme url) with
    | inl _ => x = no_result ∧ files w' = files w ∧ dirs w' = dirs w
    | inr d =>
        (dirs w' = dirs w ∨
         (¬ (d ∈ dirs w ∨ is_Some (files w !! d)) ∧ dirs w' = {[d]} ∪ dirs w)) ∧
        ((x = no_result ∧
          (files w' = files w ∨
           files w' = <[OsPath.join d "index.html" := EmptyString]> (files w)))
         ∨
         (∃ r, http E (requests w) (with_scheme url) = inr r ∧
               x = (Some (OsPath.join d "index.html"), Some (text r),
                    Some (with_scheme url), Some d) ∧
               (d ∈ dirs w' ∨ is_Some (files w !! d)) ∧
               files w' = <[OsPath.join d "index.html" := text r]> (files w)))
    end.
Proof.
  apply wp_result. unfold extract_html_from_url. wp_run; simpl in *; try done.
  all: eexists; split; [reflexivity|]; split; [done|].
  all: rewrite ?negb_true_iff, ?negb_false_iff in *.
  all: try (destruct (sanitize_url_for_directory E (with_scheme url)); [done|]).
  all: try done.
  all: split;
    [ first [ by left
            | right; split; [by eapply bool_decide_eq_false_1|done] ]
    | first [ left; split; [done|]; first [by left|by right]
            | right; eexists; split_and!; [done|done| |];
              [ first [ left; set_solver
                      | by match goal with
                           | H : bool_decide _ = true |- _ =>
                               apply bool_decide_eq_true_1 in H
                           end ]
              | by rewrite insert_insert_eq ] ] ].
Qed.

(** ** Names *)

Lemma app_cons a s t : String a s +:+ t = String a (s +:+ t).
Proof. done. Qed.

Lemma mem_app c s t : PyStr.mem c (s +:+ t) = PyStr.mem c s || PyStr.mem c t.
Proof.
  induction s as [|a s IH]; [done|]. rewrite app_cons. simpl.
  by destruct (decide (a = c)).
Qed.

Lemma truthy_app_r s t : PyStr.truthy t = true → PyStr.truthy (s +:+ t) = true.
Proof. destruct s; [done|]. by rewrite app_cons. Qed.

Lemma mem_rev_app c s acc :
  PyStr.mem c (String.rev_app s acc) = PyStr.mem c s || PyStr.mem c acc.
Proof.
  revert acc. induction s as [|a s IH]; intros acc; simpl; [done|].
  rewrite IH. simpl. destruct (decide (a = c)); [|done].
  by rewrite orb_true_r.
Qed.

Lemma prefix_mem c p s :
  String.prefix (String c p) s = true → PyStr.mem c s = true.
Proof.
  destruct s as [|b s]; simpl; [done|].
  destruct (ascii_dec c b) as [->|]; [|done]. intros _.
  by destruct (decide (b = b)).
Qed.

Lemma startswith_no_mem c s :
  PyStr.mem c s = false → PyStr.startswith s (String c EmptyString) = false.
Proof.
  intros Hm. unfold PyStr.startswith.
  destruct (String.prefix _ _) eqn:H; [|done].
  apply prefix_mem in H. congruence.
Qed.

Lemma endswith_no_mem c s :
  PyStr.mem c s = false → PyStr.endswith s (String c EmptyString) = false.
Proof.
  intros Hm. unfold PyStr.endswith.
  destruct (String.prefix _ _) eqn:H; [|done].
  apply prefix_mem in H. unfold String.rev in H.
  rewrite mem_rev_app, Hm in H. done.
Qed.

(** A name without a slash lies directly under a directory without one. *)
Lemma join_under d name :
  PyStr.truthy d = true → PyStr.mem "/" d = false → PyStr.mem "/" name = false →
  OsPath.join d name = d +:+ "/" +:+ name.
Proof.
  intros Hd Hs Hn. unfold OsPath.join.
  by rewrite (startswith_no_mem _ _ Hn), Hd, (endswith_no_mem _ _ Hs).
Qed.

Lemma join_inj dir a b :
  PyStr.mem "/" a = false → PyStr.mem "/" b = false →
  OsPath.join dir a = OsPath.join dir b → a = b.
Proof.
  intros Ha Hb. unfold OsPath.join.
  rewrite (startswith_no_mem _ _ Ha), (startswith_no_mem _ _ Hb).
  destruct (_ || _); intros H.
  - by apply (inj (String.app dir)) in H.
  - apply (inj (String.app dir)) in H. by apply (inj (String.app "/")) in H.
Qed.

Lemma sanitize_url_for_directory_chars E url d :
  sanitize_url_for_directory E url = inr d →
  PyStr.truthy d = true ∧ PyStr.mem "/" d = false.
Proof.
  unfold sanitize_url_for_directory.
  destruct (urlparse E url) as [e|p]; [done|]. intros [= <-].
  set (s := PyStr.re_sub_class separators "_" _).
  destruct (PyStr.truthy s) eqn:Ht; simpl; [|done].
  split; [done|]. apply mem_re_sub_class_in; [done|]. left.
Qed.

(** X1. The name [sanitize_url_for_directory] returns is never empty, and
    joining it with index.html gives the name, a slash and index.html: the
    page is saved directly inside the directory of that name. *)
Theorem sanitize_url_for_directory_nonempty (E : Env) (url d : string) :
  sanitize_url_for_directory E url = inr d →
  d ≠ EmptyString ∧ OsPath.join d "index.html" = d +:+ "/index.html".
Proof.
  intros Hd. apply sanitize_url_for_directory_chars in Hd as [Ht Hs]. split.
  - by intros ->.
  - by apply join_under.
Qed.

(** X2. After a successful fetch the returned directory is the name
    derived from the returned base URL, the returned path is that
    directory, a slash and index.html, the file at that path holds the
    returned HTML, which is the body of the answer, and every other file
    is as before. *)
Theorem fetch_saves_body_verbatim (E : Env) (url : string) (w w' : World)
    (p html b d : string) :
  extract_html_from_url E url w = (inr (Some p, Some html, Some b, Some d), w') →
  sanitize_url_for_directory E b = inr d ∧
  p = d +:+ "/index.html" ∧
  (∃ r, http E (requests w) b = inr r ∧ text r = html) ∧
  files w' = <[p := html]> (files w).
Proof.
  intros Hrun.
  destruct (extract_html_from_url_effects E url w) as (x & w1 & Hrun' & _ & Hx).
  rewrite Hrun in Hrun'. injection Hrun' as <- <-.
  destruct (sanitize_url_for_directory E (with_scheme url)) as [e|d'] eqn:Hd.
  { by destruct Hx as [[=] _]. }
  destruct Hx as (_ & [[[=] _]|(r & Hr & [= -> -> -> ->] & _ & Hfiles)]).
  apply sanitize_url_for_directory_chars in Hd as Hchars. destruct Hchars.
  rewrite join_under in Hfiles |- * by done.
  split_and!; [done|reflexivity|by eauto|done].
Qed.

(** X3. A fetch creates at most one directory, the one named after the
    URL, and none when something of that name exists already. *)
Theorem fetch_creates_at_most_one_directory (E : Env) (url : string) (w : World) :
  dirs (extract_html_from_url E url w).2 = dirs w ∨
  ∃ d, sanitize_url_for_directory E (with_scheme url) = inr d ∧
       ¬ (d ∈ dirs w ∨ is_Some (files w !! d)) ∧
       dirs (extract_html_from_url E url w).2 = {[d]} ∪ dirs w.
Proof.
  destruct (extract_html_from_url_effects E url w) as (x & w1 & -> & _ & Hx).
  simpl. destruct (sanitize_url_for_directory E (with_scheme url)) as [e|d].
  - left. by destruct Hx as (_ & _ & ?).
  - destruct Hx as ([?|[? ?]] & _); [by left|]. right. by exists d.
Qed.

(** X4. A fetch reads no input and changes no file other than index.html
    in the directory named after the URL, whether it succeeds or fails. *)
Theorem fetch_touches_only_index (E : Env) (url : string) (w : World) (q : string) :
  (∀ d, sanitize_url_for_directory E (with_scheme url) = inr d →
        q ≠ d +:+ "/index.html") →
  files (extract_html_from_url E url w).2 !! q = files w !! q ∧
  stdin (extract_html_from_url E url w).2 = stdin w.
Proof.
  intros Hq.
  destruct (extract_html_from_url_effects E url w) as (x & w1 & -> & Hin & Hx).
  simpl. split; [|done].
  destruct (sanitize_url_for_directory E (with_scheme url)) as [e|d] eqn:Hd.
  { destruct Hx as (_ & -> & _). done. }
  apply sanitize_url_for_directory_chars in Hd as Hchars. destruct Hchars.
  rewrite join_under in Hx by done. specialize (Hq d eq_refl).
  destruct Hx as (_ & [[_ [->| ->]]|(r & _ & _ & _ & ->)]);
    by rewrite ?lookup_insert_ne.
Qed.

(** X5. Nothing is undone: when the directory has been created and
    index.html cannot be opened, the fetch returns the result without
    components, the new directory stays and no file has changed. *)
Theorem fetch_leaves_new_directory (E : Env) (url : string) (w : World)
    (r : Response) (d : string) (e : exn) :
  http E (requests w) (with_scheme url) = inr r →
  ¬ error_status r →
  sanitize_url_for_directory E (with_scheme url) = inr d →
  ¬ (d ∈ dirs w ∨ is_Some (files w !! d)) →
  makedirs_fault E (requested (with_scheme url) w) d = None →
  open_fault E (with_dir d (requested (with_scheme url) w))
    (OsPath.join d "index.html") = Some e →
  ∃ w', extract_html_from_url E url w = (inr no_result, w') ∧
        dirs w' = {[d]} ∪ dirs w ∧ files w' = files w.
Proof.
  intros Hr Hok Hd Hnew Hmk Hopen.
  unfold with_dir, requested in Hmk, Hopen. simpl in Hopen.
  rewrite (bool_decide_eq_false_2 _ Hnew) in Hopen.
  destruct (wp_result (extract_html_from_url E url)
              (λ x w', x = no_result ∧ dirs w' = {[d]} ∪ dirs w ∧
                       files w' = files w) w)
    as (x & w' & Hrun & -> & Hw'); [|by eauto].
  unfold extract_html_from_url.
  apply wp_try_except, wp_bind, wp_print. cbn beta iota zeta.
  apply wp_bind, wp_requests_get. simpl. rewrite Hr. cbn beta iota.
  apply wp_bind, wp_raise_for_status; [done|]. intros _.
  apply wp_bind, wp_lift. rewrite Hd. cbn beta iota.
  apply wp_bind, wp_os_path_exists. simpl.
  rewrite (bool_decide_eq_false_2 _ Hnew). simpl.
  apply wp_bind, wp_bind, wp_os_makedirs. rewrite Hmk. simpl.
  rewrite (bool_decide_eq_false_2 _ Hnew).
  apply wp_print. cbn beta iota. apply wp_bind, wp_open_w.
  rewrite Hopen. wp_run; by eexists.
Qed.

(** ** The names of the saved stylesheets *)

Lemma pretty_N_char_no_slash x : pretty_N_char x ≠ "/"%char.
Proof. unfold pretty_N_char. by repeat case_match. Qed.

Lemma pretty_N_go_no_slash x s :
  PyStr.mem "/" s = false → PyStr.mem "/" (pretty_N_go x s) = false.
Proof.
  revert s. induction (N.lt_wf_0 x) as [x _ IH]; intros s Hs.
  destruct (decide (x = 0)%N) as [->|Hx]; [by rewrite pretty_N_go_0|].
  rewrite pretty_N_go_step by lia. apply IH.
  - apply N.div_lt; lia.
  - simpl. destruct (decide _) as [Heq|]; [|done].
    by apply pretty_N_char_no_slash in Heq.
Qed.

Lemma pretty_nat_no_slash (n : nat) : PyStr.mem "/" (pretty n) = false.
Proof.
  unfold pretty, pretty_nat, pretty, pretty_N.
  destruct (decide _); [done|]. by apply pretty_N_go_no_slash.
Qed.

Lemma basename_no_slash p : PyStr.mem "/" (OsPath.basename p) = false.
Proof.
  induction p as [|a p IH]; simpl; [done|].
  destruct (PyStr.mem "/" p) eqn:Hp; [done|].
  destruct (decide (a = "/"%char)); [done|]. simpl.
  by destruct (decide (a = "/"%char)).
Qed.

Lemma rev_app_app s t acc :
  String.rev_app (s +:+ t) acc = String.rev_app t (String.rev_app s acc).
Proof.
  revert acc. induction s as [|a s IH]; intros acc; [done|].
  rewrite app_cons. simpl. apply IH.
Qed.

Lemma str_app_assoc a b c : a +:+ (b +:+ c) = (a +:+ b) +:+ c.
Proof. induction a as [|x a IH]; [done|]. rewrite !app_cons. by rewrite IH. Qed.

Lemma endswith_css s : PyStr.endswith (s +:+ ".css") ".css" = true.
Proof.
  unfold PyStr.endswith, String.rev. rewrite rev_app_app. simpl.
  by destruct (String.rev_app s _).
Qed.

Lemma css_filename_of_chars (E : Env) (idx : nat) (css_url name dir : string) :
  css_filename_of E idx css_url = inr name →
  name ≠ EmptyString ∧
  PyStr.endswith name ".css" = true ∧
  PyStr.mem "/" name = false ∧
  OsPath.join dir name ≠ OsPath.join dir "index.html".
Proof.
  unfold css_filename_of. destruct (urlparse E css_url) as [e|parsed]; [done|].
  intros [= <-].
  assert (∀ n, PyStr.endswith n ".css" = true → PyStr.mem "/" n = false →
               OsPath.join dir n ≠ OsPath.join dir "index.html") as Hindex.
  { intros n Hn Hs Heq. apply join_inj in Heq; [|done..]. by subst. }
  destruct (PyStr.truthy (OsPath.basename (path parsed))) eqn:Ht; simpl.
  - destruct (PyStr.endswith _ _) eqn:Hcss; simpl.
    + pose proof (basename_no_slash (path parsed)).
      split_and!; [by intros Heq; rewrite Heq in Ht|done|done|by apply Hindex].
    + assert (PyStr.mem "/" ("style_" +:+ pretty idx +:+ ".css") = false).
      { by rewrite !mem_app, pretty_nat_no_slash. }
      assert (PyStr.endswith ("style_" +:+ pretty idx +:+ ".css") ".css" = true).
      { rewrite str_app_assoc. apply endswith_css. }
      split_and!; [done|done|done|by apply Hindex].
  - assert (PyStr.mem "/" ("style_" +:+ pretty idx +:+ ".css") = false).
    { by rewrite !mem_app, pretty_nat_no_slash. }
    assert (PyStr.endswith ("style_" +:+ pretty idx +:+ ".css") ".css" = true).
    { rewrite str_app_assoc. apply endswith_css. }
    split_and!; [done|done|done|by apply Hindex].
Qed.

(** X6. The file name chosen for a downloaded stylesheet is never empty,
    ends in .css and holds no slash: the file lands directly in the
    directory, and it is never index.html. *)
Theorem css_filename_is_safe (E : Env) (idx : nat) (css_url name dir : string) :
  css_filename_of E idx css_url = inr name →
  name ≠ EmptyString ∧
  PyStr.endswith name ".css" = true ∧
  PyStr.mem "/" name = false ∧
  OsPath.join dir name ≠ OsPath.join dir "index.html".
Proof. apply css_filename_of_chars. Qed.

(** ** What the mirror leaves alone *)

Lemma mirror_frame_refl E dir w : mirror_frame E dir w w.
Proof. by unfold mirror_frame. Qed.

Lemma mirror_frame_trans E dir w1 w2 w3 :
  mirror_frame E dir w1 w2 → mirror_frame E dir w2 w3 → mirror_frame E dir w1 w3.
Proof.
  intros (Hd & Hi & Hm & Hf) (Hd' & Hi' & Hm' & Hf').
  split_and!; [congruence|congruence|auto|].
  intros q Hq. rewrite Hf' by done. auto.
Qed.

(** A loop keeps what each of its passes keeps. *)
Lemma wp_for_each {A S} (I : World → Prop) (xs : list A) (body : A → S → M S) :
  ∀ s w,
    I w →
    (∀ x s w, I w → wp (body x s) (λ _ w', I w') w) →
    wp (for_each xs body s) (λ _ w', I w') w.
Proof.
  induction xs as [|x xs IH]; intros s w Hw Hbody; [done|].
  cbn [for_each]. apply wp_bind.
  eapply wp_consequence; [by apply Hbody|].
  intros [e|s'] w' Hw'; [done|]. by apply IH.
Qed.

Lemma mirror_link_frame E base dir total item st w :
  wp (mirror_link E base dir total item st) (λ _ w', mirror_frame E dir w w') w.
Proof.
  destruct item as [idx link], st as [soup dl]. unfold mirror_link.
  destruct (tag_get soup link "href") as [href|];
    [|apply wp_ret, mirror_frame_refl].
  destruct (PyStr.truthy href); simpl; [|apply wp_ret, mirror_frame_refl].
  apply wp_bind, wp_lift.
  destruct (urljoin E base href) as [e|u]; cbn beta iota;
    [apply mirror_frame_refl|].
  wp_run; simpl in *; try done.
  all: unfold mirror_frame; simpl; split_and!; try done.
  all: try by (intros q Hq; repeat apply insert_keeps).
  all: intros q Hq;
    by rewrite !lookup_insert_ne by (intros Heq; eapply Hq; eauto).
Qed.

Lemma mirror_links_frame E base dir soup links w :
  wp (mirror_links E base dir soup links) (λ _ w', mirror_frame E dir w w') w.
Proof.
  unfold mirror_links.
  apply (wp_for_each (λ w', mirror_frame E dir w w')); [apply mirror_frame_refl|].
  intros x s w1 Hw1. eapply wp_consequence; [apply mirror_link_frame|].
  intros r w2 Hw2. by eapply mirror_frame_trans.
Qed.

(** The whole pass: the frame of the loop, and index.html besides. *)
Lemma extract_linked_styles_frame E html base dir w :
  wp (extract_linked_styles E html base dir)
    (λ _ w',
       dirs w' = dirs w ∧ stdin w' = stdin w ∧
       (∀ q, is_Some (files w !! q) → is_Some (files w' !! q)) ∧
       (∀ q, q ≠ OsPath.join dir "index.html" →
             (∀ idx css_url name, css_filename_of E idx css_url = inr name →
                                  q ≠ OsPath.join dir name) →
             files w' !! q = files w !! q)) w.
Proof.
  unfold extract_linked_styles. apply wp_try_except, wp_bind, wp_lift.
  destruct (BeautifulSoup E html) as [e|soup]; [by wp_run|]. cbn zeta.
  destruct (find_all_stylesheet_links soup) as [|l ls] eqn:Hl; [by wp_run|].
  rewrite <-Hl. apply wp_bind, wp_print. cbn beta iota. apply wp_bind.
  eapply wp_consequence; [apply (mirror_links_frame E base dir)|].
  cbn beta. intros r w1 (Hd & Hi & Hm & Hf). simpl in *.
  destruct r as [e|[soup' dl']]; wp_run; simpl; split_and!; try done.
  all: try by (intros q Hq; repeat apply insert_keeps; auto).
  all: try by (intros q Hq Hcss; auto).
  all: intros q Hq Hcss; rewrite ?lookup_insert_ne by done; auto.
Qed.

(** X7. The mirror changes no file other than index.html and files that
    lie in the directory under a name without slash that ends in .css. *)
Theorem mirror_writes_only_stylesheets_and_index (E : Env)
    (html base dir : string) (w : World) (q : string) :
  q ≠ OsPath.join dir "index.html" →
  (∀ name, PyStr.endswith name ".css" = true → PyStr.mem "/" name = false →
           q ≠ OsPath.join dir name) →
  files (extract_linked_styles E html base dir w).2 !! q = files w !! q.
Proof.
  intros Hq Hcss.
  destruct (extract_linked_styles_frame E html base dir w) as (_ & _ & _ & Hf).
  apply Hf; [done|]. intros idx u name Hname.
  destruct (css_filename_of_chars E idx u name dir Hname) as (_ & ? & ? & _).
  by apply Hcss.
Qed.

(** X8. The downloads never overwrite the saved page: when the loop over
    the links is over, however it ends, index.html is as it was before. *)
Theorem mirror_loop_keeps_index (E : Env) (base dir : string) (soup : Soup)
    (links : list nat) (w : World) :
  files (mirror_links E base dir soup links w).2 !! OsPath.join dir "index.html"
  = files w !! OsPath.join dir "index.html".
Proof.
  destruct (mirror_links_frame E base dir soup links w) as (_ & _ & _ & Hf).
  apply Hf. intros idx u name Hname.
  destruct (css_filename_of_chars E idx u name dir Hname) as (_ & _ & _ & Hne).
  by intros Heq.
Qed.

(** X9. The mirror creates no directory, reads no input and removes no
    file, whatever it returns. *)
Theorem mirror_creates_no_directory (E : Env) (html base dir : string) (w : World) :
  dirs (extract_linked_styles E html base dir w).2 = dirs w ∧
  stdin (extract_linked_styles E html base dir w).2 = stdin w ∧
  ∀ q, is_Some (files w !! q) →
       is_Some (files (extract_linked_styles E html base dir w).2 !! q).
Proof.
  destruct (extract_linked_styles_frame E html base dir w) as (? & ? & ? & _).
  done.
Qed.

(** ** The requests of the mirror *)

Lemma length_omap_le {A B} (f : A → option B) (l : list A) :
  length (omap f l) ≤ length l.
Proof.
  induction l as [|x l IH]; [done|]. rewrite omap_cons_eq.
  destruct (f x); simpl; lia.
Qed.

(** X10. No request is repeated and none is made out of turn: the requests
    of a pass are the resolved references of the stylesheet links of an
    initial segment of the document, in document order, at most one for
    each link; a page that does not parse causes none. *)
Theorem mirror_requests_initial_segment (E : Env) (html base dir : string)
    (w : World) :
  (∀ e, BeautifulSoup E html = inl e →
        requests (extract_linked_styles E html base dir w).2 = requests w) ∧
  ∀ soup, BeautifulSoup E html = inr soup →
    ∃ i us,
      us = omap (css_url_of E base soup) (take i (find_all_stylesheet_links soup)) ∧
      requests (extract_linked_styles E html base dir w).2 = requests w ++ us ∧
      length us ≤ length (find_all_stylesheet_links soup).
Proof.
  split.
  { intros e He. unfold extract_linked_styles. by rewrite He. }
  intros soup Hparse.
  assert (∀ i, length (omap (css_url_of E base soup)
                         (take i (find_all_stylesheet_links soup)))
               ≤ length (find_all_stylesheet_links soup)) as Hlen.
  { intros i. etrans; [apply length_omap_le|]. rewrite length_take. lia. }
  destruct (find_all_stylesheet_links soup) as [|l0 ls0] eqn:Hlinks.
  { destruct (no_links_run E html base dir w soup Hparse Hlinks)
      as (w' & -> & Hreq & _).
    exists 0, []. simpl. by rewrite app_nil_r. }
  destruct (extract_linked_styles_run E html base dir w soup Hparse)
    as (b & w' & -> & Hrun); [by rewrite Hlinks|].
  pose proof (mirror_links_spec E base dir soup
                (announced (length (find_all_stylesheet_links soup)) w)) as Hpost.
  rewrite Hlinks in Hrun, Hpost. simpl.
  destruct (mirror_links _ _ _ _ _ _) as [[e|[soup' dl']] w1]; simpl in *.
  - destruct Hpost as (i & l & href & _ & _ & _ & Hreq).
    destruct Hrun as (_ & -> & _). eexists i, _. split_and!; [done..|].
    apply Hlen.
  - destruct Hpost as (Hreq & _). destruct Hrun as (-> & _).
    eexists (length (l0 :: ls0)), _. split_and!; [done| |apply Hlen].
    by rewrite firstn_all.
Qed.

(** ** What the mirror does to the document *)

Lemma node_set_node_set key v v0 n :
  node_set key v (node_set key v0 n) = node_set key v n.
Proof. destruct n as [s|t]; simpl; [done|]. by rewrite insert_insert_eq. Qed.

Lemma is_stylesheet_link_node_set v n :
  is_stylesheet_link (node_set "href" v n) = is_stylesheet_link n.
Proof. destruct n as [s|t]; simpl; [done|]. by rewrite lookup_insert_ne. Qed.

Lemma rewritten_refl links soup : rewritten links soup soup.
Proof. split; [done|]. intros j n Hn. exists n. auto. Qed.

Lemma rewritten_tag_set links soup soup' l v :
  rewritten links soup soup' → l ∈ links →
  rewritten links soup (tag_set soup' l "href" v).
Proof.
  intros [Hlen Hnodes] Hl. split.
  { unfold tag_set. by rewrite length_alter. }
  intros j n Hn. destruct (Hnodes j n Hn) as (n' & Hn' & Hrel).
  unfold tag_set. destruct (decide (l = j)) as [->|Hne].
  - rewrite list_lookup_alter_eq, Hn'. simpl. eexists. split; [done|].
    right. split; [done|].
    destruct Hrel as [->|(_ & v0 & ->)]; [by eexists|].
    exists v. apply node_set_node_set.
  - rewrite list_lookup_alter_ne by done. eauto.
Qed.

Lemma rewritten_find_all links soup soup' :
  rewritten links soup soup' →
  find_all_stylesheet_links soup' = find_all_stylesheet_links soup.
Proof.
  intros [Hlen Hnodes].
  assert (Forall2 (λ n n', is_stylesheet_link n' = is_stylesheet_link n)
            soup soup') as Hall.
  { apply Forall2_same_length_lookup. split; [by symmetry|].
    intros j n n' Hn Hn'. destruct (Hnodes j n Hn) as (n0 & Hn0 & Hrel).
    assert (n0 = n') as -> by congruence.
    destruct Hrel as [->|(_ & v & ->)]; [done|].
    apply is_stylesheet_link_node_set. }
  clear Hlen Hnodes. unfold find_all_stylesheet_links. generalize 0.
  induction Hall as [|n n' soup soup' Hn _ IH]; intros i; simpl; [done|].
  by rewrite Hn, IH.
Qed.

Lemma elem_of_enumerate {A} (k idx : nat) (x : A) (xs : list A) :
  (idx, x) ∈ enumerate k xs → x ∈ xs.
Proof.
  revert k. induction xs as [|y xs IH]; intros k; simpl.
  - by intros ?%elem_of_nil.
  - intros [[= _ ->]|H]%elem_of_cons; [by left|]. right. eauto.
Qed.

(** A loop keeps, as long as it does not raise, what each pass over one of
    its elements keeps. *)
Lemma for_each_state_inv {A S} (I : S → Prop) (body : A → S → M S) (xs : list A) :
  (∀ x s w, x ∈ xs → I s →
     match (body x s w).1 with inr s' => I s' | inl _ => True end) →
  ∀ s w, I s →
    match (for_each xs body s w).1 with inr s' => I s' | inl _ => True end.
Proof.
  induction xs as [|x xs IH]; intros Hbody s w Hs; [done|].
  cbn [for_each]. unfold bind.
  specialize (Hbody x s w (list_elem_of_here _ _) Hs) as Hstep.
  destruct (body x s w) as [[e|s'] w']; [done|]. simpl in Hstep.
  apply IH; [|done]. intros y s0 w0 Hy. apply Hbody. by right.
Qed.

Lemma mirror_links_rewritten E base dir soup links w :
  match (mirror_links E base dir soup links w).1 with
  | inr (soup', _) => rewritten links soup soup'
  | inl _ => True
  end.
Proof.
  unfold mirror_links.
  pose proof (for_each_state_inv (λ st : Soup * list string, rewritten links soup st.1)
                (mirror_link E base dir (length links)) (enumerate 1 links)) as H.
  cbn beta in H.
  specialize (λ Hb, H Hb (soup, []) w (rewritten_refl links soup)).
  destruct (for_each _ _ _ _) as [[e|[soup' dl']] w']; [done|].
  apply H. clear. intros [idx l] [soup1 dl1] w Hl%elem_of_enumerate Hinv.
  pose proof (mirror_link_spec E base dir (length links) idx l soup1 dl1 w) as Hs.
  cbn zeta in Hs. destruct (reference soup1 l) as [href|]; [|by rewrite Hs].
  destruct (urljoin E base href) as [e|u]; [by rewrite Hs|].
  destruct Hs as (st' & w' & -> & _ & _ & _ & [[-> _]|(r & name & _ & -> & _)]);
    [done|]. by apply rewritten_tag_set.
Qed.

(** X11. When a pass over a page with stylesheet links returns true,
    index.html holds the serialization of a document that differs from
    the parsed page in nothing but the [href] of stylesheet links: it has
    as many nodes, every other node and every other attribute is as
    parsed, and the stylesheet links are the same tags. *)
Theorem mirror_rewrites_only_references (E : Env) (html base dir : string)
    (w w' : World) (soup : Soup) :
  BeautifulSoup E html = inr soup →
  find_all_stylesheet_links soup ≠ [] →
  extract_linked_styles E html base dir w = (inr true, w') →
  ∃ soup' out,
    soup_str E soup' = inr out ∧
    files w' !! OsPath.join dir "index.html" = Some out ∧
    rewritten (find_all_stylesheet_links soup) soup soup' ∧
    find_all_stylesheet_links soup' = find_all_stylesheet_links soup.
Proof.
  intros Hparse Hlinks Hrun.
  destruct (extract_linked_styles_run E html base dir w soup Hparse Hlinks)
    as (b & w1 & Hrun' & Hrest).
  rewrite Hrun in Hrun'. injection Hrun' as <- <-.
  pose proof (mirror_links_rewritten E base dir soup
                (find_all_stylesheet_links soup)
                (announced (length (find_all_stylesheet_links soup)) w)) as Hrw.
  destruct (mirror_links _ _ _ _ _ _) as [[e|[soup' dl']] w1]; simpl in *.
  { by destruct Hrest as ([=] & _). }
  destruct Hrest as (_ & Hfinal).
  destruct (open_fault E w1 _); [by destruct Hfinal as ([=] & _)|].
  destruct (soup_str E soup') as [e|out] eqn:Hout;
    [by destruct Hfinal as ([=] & _)|].
  destruct (write_fault E _ _ _); [by destruct Hfinal as ([=] & _)|].
  destruct Hfinal as (_ & Hfiles).
  exists soup', out. split_and!; [done| |done|by eapply rewritten_find_all].
  by rewrite Hfiles, lookup_insert_eq.
Qed.

(** ** The driver, after the first prompt *)

Lemma wp_input prompt (Q : exn + string → World → Prop) w :
  match stdin w with
  | [] => Q (inl (Exn EOFError "EOF when reading a line"))
            (set_stdout (λ o, o ++ [prompt]) w)
  | l :: ls => Q (inr l) (set_stdin (λ _, ls) (set_stdout (λ o, o ++ [prompt]) w))
  end →
  wp (input prompt) Q w.
Proof. unfold wp, input. simpl. by destruct (stdin w). Qed.

Lemma wp_returns {A} (m : M A) (Q : exn + A → World → Prop) w :
  (∃ a w', m w = (inr a, w')) → (∀ a w', m w = (inr a, w') → Q (inr a) w') →
  wp m Q w.
Proof. intros (a & w' & Hrun) HQ. unfold wp. rewrite Hrun. by apply HQ. Qed.

(** The pass of the mirror always returns. *)
Lemma extract_linked_styles_returns E html base dir w :
  ∃ b w', extract_linked_styles E html base dir w = (inr b, w').
Proof.
  unfold extract_linked_styles, try_except.
  destruct (bind _ _ w) as [[e|b] w']; [|by eauto]. by eexists _, _.
Qed.

Lemma extract_html_from_url_returns E url w :
  ∃ x w', extract_html_from_url E url w = (inr x, w').
Proof.
  destruct (extract_html_from_url_spec E url w) as (x & w' & Hrun & _). eauto.
Qed.

Lemma truthy_index_path E url d :
  sanitize_url_for_directory E url = inr d →
  PyStr.truthy (OsPath.join d "index.html") = true.
Proof.
  intros [Ht Hs]%sanitize_url_for_directory_chars.
  rewrite join_under by done. by apply truthy_app_r.
Qed.

(** [main] up to the fetch: the banner, the prompt, the line read. *)
Lemma main_to_fetch E w line rest (P : exn + unit → World → Prop) :
  stdin w = line :: rest →
  PyStr.truthy (PyStr.strip_ws line) = true →
  (∀ x w1,
     extract_html_from_url E (PyStr.strip_ws line) (asked_url rest w) = (inr x, w1) →
     wp (let failed := print (nl +:+ cross_mark +:+ " Failed to extract HTML.") in
         match x with
         | (Some html_file_path, Some html_content, Some base_url, Some dir_name) =>
             if PyStr.truthy html_file_path then
               print (nl +:+ check_mark +:+ " Success! HTML file saved at: "
                      +:+ html_file_path) ;;;
               let* answer :=
                 input (nl +:+ "Do you want to extract linked styles? (y/n): ") in
               let extract_styles := PyStr.lower (PyStr.strip_ws answer) in
               if bool_decide (extract_styles ∈ ["y"; "yes"]%string) then
                 print (nl +:+ "Extracting linked stylesheets...") ;;;
                 extract_linked_styles E html_content base_url dir_name ;;;
                 ret ()
               else
                 print "Skipping style extraction."
             else failed
         | _ => failed
         end) P w1) →
  wp (main E) P w.
Proof.
  intros Hin Ht Hrest. unfold main.
  do 2 (apply wp_bind, wp_print; cbn beta iota).
  apply wp_bind, wp_input. simpl. rewrite Hin. cbn zeta. rewrite Ht. simpl.
  apply wp_bind, wp_returns; [apply extract_html_from_url_returns|].
  intros x w1 Hrun. by apply Hrest.
Qed.

(** X13. When the fetch fails, [main] goes no further: the line typed for
    the second prompt is not read, the one request of the fetch is the
    only one, and files and directories are as the fetch left them. *)
Theorem main_stops_after_failed_fetch (E : Env) (w : World) (line : string)
    (rest : list string) :
  stdin w = line :: rest →
  PyStr.truthy (PyStr.strip_ws line) = true →
  fetch_failure E (PyStr.strip_ws line) (asked_url rest w) →
  let w1 := (extract_html_from_url E (PyStr.strip_ws line) (asked_url rest w)).2 in
  stdin (main E w).2 = rest ∧
  requests (main E w).2 = requests w ++ [with_scheme (PyStr.strip_ws line)] ∧
  files (main E w).2 = files w1 ∧
  dirs (main E w).2 = dirs w1.
Proof.
  intros Hin Ht Hfail w1.
  assert (wp (main E)
            (λ _ w', stdin w' = rest ∧
               requests w' = requests w ++ [with_scheme (PyStr.strip_ws line)] ∧
               files w' = files w1 ∧ dirs w' = dirs w1) w) as H; [|exact H].
  eapply main_to_fetch; [done..|]. intros x wf Hrun.
  pose proof (extract_html_from_url_requests E (PyStr.strip_ws line)
                (asked_url rest w)) as Hreq.
  destruct (extract_html_from_url_effects E (PyStr.strip_ws line) (asked_url rest w))
    as (x1 & wf1 & Hrun1 & Hstdin & _).
  destruct (extract_html_from_url_spec E (PyStr.strip_ws line) (asked_url rest w))
    as (x2 & wf2 & Hrun2 & Hx).
  unfold w1. rewrite Hrun in Hreq, Hrun1, Hrun2 |- *. simpl in Hreq.
  injection Hrun1 as <- <-. injection Hrun2 as <- <-.
  destruct Hx as [(-> & _)|(r & d & _ & _ & _ & _ & _ & Hnf)]; [|done].
  cbn zeta. apply wp_print. by eexists.
Qed.

(** X14. After a successful fetch, an answer other than y or yes (in any
    case, blanks around it apart) keeps [main] out of the mirror: no
    further request is issued, and files and directories are those the
    fetch left. *)
Theorem main_declined_leaves_page (E : Env) (w w1 : World) (line answer : string)
    (rest : list string) (p h b d : string) :
  stdin w = line :: answer :: rest →
  PyStr.truthy (PyStr.strip_ws line) = true →
  extract_html_from_url E (PyStr.strip_ws line) (asked_url (answer :: rest) w)
  = (inr (Some p, Some h, Some b, Some d), w1) →
  PyStr.lower (PyStr.strip_ws answer) ∉ ["y"; "yes"]%string →
  files (main E w).2 = files w1 ∧
  dirs (main E w).2 = dirs w1 ∧
  requests (main E w).2 = requests w1.
Proof.
  intros Hin Ht Hfetch Hno.
  assert (wp (main E)
            (λ _ w', files w' = files w1 ∧ dirs w' = dirs w1 ∧
                     requests w' = requests w1) w) as H; [|exact H].
  eapply main_to_fetch; [done..|]. intros x w2 Hrun.
  rewrite Hfetch in Hrun. injection Hrun as <- <-.
  destruct (extract_html_from_url_effects E (PyStr.strip_ws line)
              (asked_url (answer :: rest) w)) as (x1 & wf1 & Hrun1 & Hstdin & _).
  destruct (extract_html_from_url_spec E (PyStr.strip_ws line)
              (asked_url (answer :: rest) w)) as (x2 & wf2 & Hrun2 & Hx).
  rewrite Hfetch in Hrun1, Hrun2.
  injection Hrun1 as <- <-. injection Hrun2 as <- <-.
  destruct Hx as [([=] & _)|(r & d' & _ & _ & Hd & [= -> -> -> ->] & _)].
  cbn zeta. rewrite (truthy_index_path _ _ _ Hd).
  apply wp_bind, wp_print. cbn beta iota. apply wp_bind, wp_input. simpl.
  simpl in Hstdin. rewrite Hstdin. cbn zeta.
  rewrite (bool_decide_eq_false_2 _ Hno). apply wp_print. by eexists.
Qed.

(** X15. After a successful fetch, the answer y or yes (in any case, blanks
    around it apart) makes [main] run the mirror on exactly the HTML, the
    base URL and the directory the fetch returned, and [main] returns in
    the world the mirror leaves (the console taking every line). *)
Theorem main_accepted_runs_mirror (E : Env) (w w1 : World) (line answer : string)
    (rest : list string) (p h b d : string) :
  stdin w = line :: answer :: rest →
  PyStr.truthy (PyStr.strip_ws line) = true →
  extract_html_from_url E (PyStr.strip_ws line) (asked_url (answer :: rest) w)
  = (inr (Some p, Some h, Some b, Some d), w1) →
  PyStr.lower (PyStr.strip_ws answer) ∈ ["y"; "yes"]%string →
  main E w
  = (inr (),
     (extract_linked_styles E h b d
        (set_stdout (λ o, o ++ [nl +:+ "Extracting linked stylesheets..."])
           (asked_styles p rest w1))).2).
Proof.
  intros Hin Ht Hfetch Hyes.
  destruct (wp_result (main E)
              (λ _ w', w' = (extract_linked_styles E h b d
                 (set_stdout (λ o, o ++ [nl +:+ "Extracting linked stylesheets..."])
                    (asked_styles p rest w1))).2) w)
    as ([] & w' & Hrun & ->); [|done].
  eapply main_to_fetch; [done..|]. intros x w2 Hrun.
  rewrite Hfetch in Hrun. injection Hrun as <- <-.
  destruct (extract_html_from_url_effects E (PyStr.strip_ws line)
              (asked_url (answer :: rest) w)) as (x' & w1' & Hrun' & Hstdin & _).
  destruct (extract_html_from_url_spec E (PyStr.strip_ws line)
              (asked_url (answer :: rest) w)) as (x'' & w1'' & Hrun'' & Hx).
  rewrite Hfetch in Hrun', Hrun''.
  injection Hrun' as <- <-. injection Hrun'' as <- <-.
  destruct Hx as [([=] & _)|(r & d' & _ & _ & Hd & [= -> -> -> ->] & _)].
  cbn zeta. rewrite (truthy_index_path _ _ _ Hd).
  apply wp_bind, wp_print. cbn beta iota. apply wp_bind, wp_input. simpl.
  simpl in Hstdin. rewrite Hstdin. cbn zeta.
  rewrite (bool_decide_eq_true_2 _ Hyes). apply wp_bind, wp_print.
  cbn beta iota.
  apply wp_bind, wp_returns; [apply extract_linked_styles_returns|].
  intros b0 w3 Hm. apply wp_ret. eexists. split; [done|].
  unfold asked_styles. by rewrite Hm.
Qed.

(** ** Names made up for stylesheets *)

Lemma str_length_app s t :
  String.length (s +:+ t) = String.length s + String.length t.
Proof. induction s as [|a s IH]; [done|]. rewrite app_cons. simpl. by rewrite IH. Qed.

Lemma str_app_inj_r s1 s2 t : s1 +:+ t = s2 +:+ t → s1 = s2.
Proof.
  revert s2. induction s1 as [|a s1 IH]; intros [|b s2] H.
  - done.
  - apply (f_equal String.length) in H.
    rewrite !str_length_app in H. simpl in H. lia.
  - apply (f_equal String.length) in H.
    rewrite !str_length_app in H. simpl in H. lia.
  - rewrite !app_cons in H. injection H as -> H. f_equal. by apply IH.
Qed.

(** X16. The names made up for stylesheets do not clash with one another:
    two links at different positions whose URLs give no usable file name
    are saved under different names. *)
Theorem made_up_names_differ (E : Env) (i j : nat) (u1 u2 : string)
    (p1 p2 : ParseResult) :
  urlparse E u1 = inr p1 →
  urlparse E u2 = inr p2 →
  PyStr.truthy (OsPath.basename (path p1))
    && PyStr.endswith (OsPath.basename (path p1)) ".css" = false →
  PyStr.truthy (OsPath.basename (path p2))
    && PyStr.endswith (OsPath.basename (path p2)) ".css" = false →
  i ≠ j →
  css_filename_of E i u1 ≠ css_filename_of E j u2.
Proof.
  intros H1 H2 Hu1 Hu2 Hij. unfold css_filename_of. rewrite H1, H2.
  rewrite <-!negb_andb, Hu1, Hu2. simpl. intros [= H]. apply Hij.
  assert (pretty i = pretty j) as Hp
    by (apply (str_app_inj_r _ _ ".css"); exact H).
  by apply (inj pretty) in Hp.
Qed.

(** ** Fetching again *)

(** X17. Fetching a URL a second time, when both fetches succeed, creates
    no directory, saves under the same path, and leaves the files as the
    first fetch found them but for the page, which holds the body of the
    second answer. *)
Theorem fetch_again_overwrites (E : Env) (url : string) (w w1 w2 : World)
    (p1 h1 b1 d1 p2 h2 b2 d2 : string) :
  extract_html_from_url E url w = (inr (Some p1, Some h1, Some b1, Some d1), w1) →
  extract_html_from_url E url w1 = (inr (Some p2, Some h2, Some b2, Some d2), w2) →
  p2 = p1 ∧ d2 = d1 ∧ b2 = b1 ∧
  dirs w2 = dirs w1 ∧
  files w2 = <[p1 := h2]> (files w).
Proof.
  intros Hrun1 Hrun2.
  destruct (extract_html_from_url_effects E url w) as (x & w' & Hr & _ & Hx).
  rewrite Hrun1 in Hr. injection Hr as <- <-.
  destruct (extract_html_from_url_effects E url w1) as (x & w' & Hr & _ & Hy).
  rewrite Hrun2 in Hr. injection Hr as <- <-.
  destruct (sanitize_url_for_directory E (with_scheme url)) as [e|d]; 
    [by destruct Hx as ([=] & _)|].
  destruct Hx as (_ & [[[=] _]|(r & _ & [= -> -> -> ->] & Hd & Hf1)]).
  destruct Hy as (Hdirs & [[[=] _]|(r' & _ & [= -> -> ->] & _ & Hf2)]).
  split_and!; try done.
  - destruct Hdirs as [?|[Hnew _]]; [done|]. exfalso. apply Hnew.
    destruct Hd as [?|Hd]; [by left|]. right. rewrite Hf1.
    by apply insert_keeps.
  - by rewrite Hf2, Hf1, insert_insert_eq.
Qed.

(** * Concrete runs of the further properties *)

Lemma sanitize_url_for_directory_nonempty_witness :
  "example.com_page"%string ≠ EmptyString ∧
  OsPath.join "example.com_page" "index.html"
  = "example.com_page" +:+ "/index.html".
Proof.
  apply (sanitize_url_for_directory_nonempty Demo.env "https://example.com/page").
  vm_compute; reflexivity.
Defined.

Lemma fetch_saves_body_verbatim_witness :
  sanitize_url_for_directory Demo.env "https://example.com/page"
  = inr "example.com_page"%string ∧
  "example.com_page/index.html"%string = "example.com_page" +:+ "/index.html" ∧
  (∃ r, http Demo.env (requests (Demo.world [])) "https://example.com/page" = inr r ∧
        text r = Demo.render Demo.page_soup) ∧
  files (Demo.fetched_world "example.com/page")
  = <["example.com_page/index.html"%string := Demo.render Demo.page_soup]>
      (files (Demo.world [])).
Proof.
  apply (fetch_saves_body_verbatim Demo.env "example.com/page" (Demo.world [])
           (Demo.fetched_world "example.com/page")
           "example.com_page/index.html" (Demo.render Demo.page_soup)
           "https://example.com/page" "example.com_page").
  vm_compute; reflexivity.
Defined.

Lemma fetch_touches_only_index_witness :
  files (extract_html_from_url Demo.env "example.com/page" (Demo.world [])).2
    !! "notes.txt"%string
  = files (Demo.world []) !! "notes.txt"%string ∧
  stdin (extract_html_from_url Demo.env "example.com/page" (Demo.world [])).2
  = stdin (Demo.world []).
Proof.
  apply (fetch_touches_only_index Demo.env "example.com/page" (Demo.world [])
           "notes.txt").
  intros d Hd. vm_compute in Hd. injection Hd as <-.
  intros H. vm_compute in H. discriminate H.
Defined.

Lemma fetch_leaves_new_directory_witness :
  ∃ w', extract_html_from_url Demo.read_only_env "example.com/page" (Demo.world [])
        = (inr no_result, w') ∧
        dirs w' = {[ "example.com_page"%string ]} ∪ dirs (Demo.world []) ∧
        files w' = files (Demo.world []).
Proof.
  apply (fetch_leaves_new_directory Demo.read_only_env "example.com/page"
           (Demo.world [])
           {| status_code := 200; reason := "OK";
              final_url := "https://example.com/page";
              text := Demo.render Demo.page_soup |}
           "example.com_page" (Exn OSError "Permission denied")).
  - vm_compute; reflexivity.
  - unfold error_status. simpl. lia.
  - vm_compute; reflexivity.
  - intros [H|H].
    + exact (proj1 (elem_of_empty _) H).
    + simpl in H. rewrite lookup_empty in H. destruct H as [x Hx].
      discriminate Hx.
  - reflexivity.
  - reflexivity.
Defined.

Lemma css_filename_is_safe_witness :
  "style_5.css"%string ≠ EmptyString ∧
  PyStr.endswith "style_5.css" ".css" = true ∧
  PyStr.mem "/" "style_5.css" = false ∧
  OsPath.join "example.com_mixed" "style_5.css"
  ≠ OsPath.join "example.com_mixed" "index.html".
Proof.
  apply (css_filename_is_safe Demo.env 5 "https://example.com/theme/").
  vm_compute; reflexivity.
Defined.

Lemma mirror_writes_only_stylesheets_and_index_witness :
  files (extract_linked_styles Demo.env (Demo.render Demo.page_soup)
           "https://example.com/page" "example.com_page"
           (Demo.fetched_world "example.com/page")).2 !! "notes.txt"%string
  = files (Demo.fetched_world "example.com/page") !! "notes.txt"%string.
Proof.
  apply mirror_writes_only_stylesheets_and_index.
  - intros H. vm_compute in H. discriminate H.
  - intros name _ Hname H. rewrite join_under in H; [|reflexivity..|exact Hname].
    vm_compute in H. discriminate H.
Defined.

Lemma mirror_creates_no_directory_witness :
  is_Some (files (extract_linked_styles Demo.env (Demo.render Demo.page_soup)
                    "https://example.com/page" "example.com_page"
                    (Demo.fetched_world "example.com/page")).2
             !! "example.com_page/index.html"%string).
Proof.
  apply (proj2 (proj2 (mirror_creates_no_directory Demo.env
                         (Demo.render Demo.page_soup)
                         "https://example.com/page" "example.com_page"
                         (Demo.fetched_world "example.com/page")))).
  exists (Demo.render Demo.page_soup). vm_compute; reflexivity.
Defined.

Lemma mirror_requests_initial_segment_witness :
  ∃ i us,
    us = omap (css_url_of Demo.env "https://example.com/broken" Demo.broken_soup)
           (take i (find_all_stylesheet_links Demo.broken_soup)) ∧
    requests Demo.broken_run.2
    = requests (Demo.fetched_world "example.com/broken") ++ us ∧
    length us ≤ length (find_all_stylesheet_links Demo.broken_soup).
Proof.
  apply (proj2 (mirror_requests_initial_segment Demo.env
                  (Demo.render Demo.broken_soup) "https://example.com/broken"
                  "example.com_broken" (Demo.fetched_world "example.com/broken"))
           Demo.broken_soup).
  vm_compute; reflexivity.
Defined.

Lemma mirror_rewrites_only_references_witness :
  ∃ soup' out,
    soup_str Demo.env soup' = inr out ∧
    files (extract_linked_styles Demo.env (Demo.render Demo.page_soup)
             "https://example.com/page" "example.com_page"
             (Demo.fetched_world "example.com/page")).2
      !! OsPath.join "example.com_page" "index.html" = Some out ∧
    rewritten (find_all_stylesheet_links Demo.page_soup) Demo.page_soup soup' ∧
    find_all_stylesheet_links soup' = find_all_stylesheet_links Demo.page_soup.
Proof.
  apply (mirror_rewrites_only_references Demo.env (Demo.render Demo.page_soup)
           "https://example.com/page" "example.com_page"
           (Demo.fetched_world "example.com/page")).
  - vm_compute; reflexivity.
  - vm_compute. discriminate.
  - vm_compute; reflexivity.
Defined.

Lemma main_stops_after_failed_fetch_witness :
  stdin (main Demo.env (Demo.world ["example.com/nothing"; "y"]%string)).2
  = ["y"%string] ∧
  requests (main Demo.env (Demo.world ["example.com/nothing"; "y"]%string)).2
  = requests (Demo.world ["example.com/nothing"; "y"]%string)
    ++ [with_scheme (PyStr.strip_ws "example.com/nothing")] ∧
  files (main Demo.env (Demo.world ["example.com/nothing"; "y"]%string)).2
  = files (extract_html_from_url Demo.env (PyStr.strip_ws "example.com/nothing")
             (asked_url ["y"%string]
                (Demo.world ["example.com/nothing"; "y"]%string))).2 ∧
  dirs (main Demo.env (Demo.world ["example.com/nothing"; "y"]%string)).2
  = dirs (extract_html_from_url Demo.env (PyStr.strip_ws "example.com/nothing")
            (asked_url ["y"%string]
               (Demo.world ["example.com/nothing"; "y"]%string))).2.
Proof.
  apply (main_stops_after_failed_fetch Demo.env
           (Demo.world ["example.com/nothing"; "y"]%string)
           "example.com/nothing" ["y"%string]).
  - reflexivity.
  - vm_compute; reflexivity.
  - apply (network_error _ _ _ (Exn RequestException "Connection refused")).
    vm_compute; reflexivity.
Defined.

Lemma main_declined_leaves_page_witness :
  files (main Demo.env (Demo.world ["example.com/page"; "n"]%string)).2
  = files (Demo.fetched_world "example.com/page") ∧
  dirs (main Demo.env (Demo.world ["example.com/page"; "n"]%string)).2
  = dirs (Demo.fetched_world "example.com/page") ∧
  requests (main Demo.env (Demo.world ["example.com/page"; "n"]%string)).2
  = requests (Demo.fetched_world "example.com/page").
Proof.
  destruct (main_declined_leaves_page Demo.env
              (Demo.world ["example.com/page"; "n"]%string)
              (extract_html_from_url Demo.env "example.com/page"
                 (asked_url ["n"%string]
                    (Demo.world ["example.com/page"; "n"]%string))).2
              "example.com/page" "n" []
              "example.com_page/index.html" (Demo.render Demo.page_soup)
              "https://example.com/page" "example.com_page")
    as (Hfiles & Hdirs & Hreq).
  - reflexivity.
  - vm_compute; reflexivity.
  - vm_compute; reflexivity.
  - apply not_elem_of_cons. split; [vm_compute; discriminate|].
    apply not_elem_of_cons. split; [vm_compute; discriminate|].
    apply not_elem_of_nil.
  - split_and!.
    + rewrite Hfiles. vm_compute; reflexivity.
    + rewrite Hdirs. vm_compute; reflexivity.
    + rewrite Hreq. vm_compute; reflexivity.
Defined.

Lemma main_accepted_runs_mirror_witness :
  main Demo.env (Demo.world ["example.com/page"; " YES "]%string)
  = (inr (),
     (extract_linked_styles Demo.env (Demo.render Demo.page_soup)
        "https://example.com/page" "example.com_page"
        (set_stdout (λ o, o ++ [nl +:+ "Extracting linked stylesheets..."])
           (asked_styles "example.com_page/index.html" []
              (extract_html_from_url Demo.env "example.com/page"
                 (asked_url [" YES "%string]
                    (Demo.world ["example.com/page"; " YES "]%string))).2))).2).
Proof.
  apply (main_accepted_runs_mirror Demo.env
           (Demo.world ["example.com/page"; " YES "]%string) _
           "example.com/page" " YES " []).
  - reflexivity.
  - vm_compute; reflexivity.
  - vm_compute; reflexivity.
  - vm_compute. apply list_elem_of_further, list_elem_of_here.
Defined.

Lemma made_up_names_differ_witness :
  css_filename_of Demo.env 3 "https://example.com/theme/"
  ≠ css_filename_of Demo.env 5 "https://example.com/".
Proof.
  apply (made_up_names_differ Demo.env 3 5 _ _
           {| scheme := "https"; netloc := "example.com"; path := "/theme/";
              params := EmptyString; query := EmptyString;
              fragment := EmptyString |}
           {| scheme := "https"; netloc := "example.com"; path := "/";
              params := EmptyString; query := EmptyString;
              fragment := EmptyString |}).
  - vm_compute; reflexivity.
  - vm_compute; reflexivity.
  - vm_compute; reflexivity.
  - vm_compute; reflexivity.
  - lia.
Defined.

Lemma fetch_again_overwrites_witness :
  "example.com_page/index.html"%string = "example.com_page/index.html"%string ∧
  "example.com_page"%string = "example.com_page"%string ∧
  "https://example.com/page"%string = "https://example.com/page"%string ∧
  dirs (extract_html_from_url Demo.env "example.com/page"
          (Demo.fetched_world "example.com/page")).2
  = dirs (Demo.fetched_world "example.com/page") ∧
  files (extract_html_from_url Demo.env "example.com/page"
           (Demo.fetched_world "example.com/page")).2
  = <["example.com_page/index.html"%string := Demo.render Demo.page_soup]>
      (files (Demo.world [])).
Proof.
  apply (fetch_again_overwrites Demo.env "example.com/page" (Demo.world [])
           (Demo.fetched_world "example.com/page")
           (extract_html_from_url Demo.env "example.com/page"
              (Demo.fetched_world "example.com/page")).2
           "example.com_page/index.html" (Demo.render Demo.page_soup)
           "https://example.com/page" "example.com_page"
           "example.com_page/index.html" (Demo.render Demo.page_soup)
           "https://example.com/page" "example.com_page").
  - vm_compute; reflexivity.
  - vm_compute; reflexivity.
Defined.
